(** * pdf-generator: the request orchestration of [server.js]

    A shallow embedding of the Express application of [src/server.js]:
    the cross-origin check, the temporary-file helpers and the
    [/generate-pdf] handler with its try / catch / finally structure.

    The rendering engine (puppeteer), the filesystem and the runtime
    are outside the repository.  Every call into them is an event of a
    trace, and its outcome for the request at hand is read from a
    [World] record; the filesystem is a finite map from paths to file
    contents that the export step, [fs.stat], [fs.readFile] and
    [fs.unlink] share.

    Four things are taken for granted.  Every awaited call settles:
    it resolves or it rejects.  The calls that are not awaited
    ([console.log], [console.error], the methods of the response
    object, [crypto.randomBytes], [path.join], [setTimeout]) return.
    While one request is handled nothing but that request writes to
    its temporary path.  And paths are POSIX paths: [path.join] is
    the one of [path.posix].

    The response is recorded as the handler leaves it: the status it
    set, the headers it set, the body it handed over.  What Express
    then writes on the wire (headers of its own, its answer to a
    conditional request) happens inside [res.send] and [res.json]
    and is not part of the record.  The trace records the calls of
    [console.log] and [console.error], of [crypto.randomBytes], of
    [puppeteer.launch] and the methods of the browser and of the
    page, of [fs.stat], [fs.readFile] and [fs.unlink], and of
    [setTimeout]; the methods of the response object and of the
    navigation response, [path.join], [toString] and the property
    reads change the state or return a value and leave no event. *)

From Stdlib Require Import Strings.Ascii Strings.Byte.
From stdpp Require Import gmap strings pretty list fin_maps.

#[local] Set Warnings "-register-all,-clear-no-such-hyp".
Local Open Scope string_scope.
Local Open Scope N_scope.

(** ** JavaScript values *)

Module Js.

(** The values that occur in object literals of the source.  Numbers
    are the decimal literals of the source, kept as [mantissa * 10^-digits]
    ([0.8] is [Num 8 1]); all other numbers are naturals. *)
Inductive val : Type :=
| Undefined
| Bool (b : bool)
| Num (mantissa : N) (digits : nat)
| Str (s : string)
| Arr (l : list val)
| Obj (o : gmap string val).

Definition int (n : N) : val := Num n 0.

Definition is_undefined (v : val) : bool :=
  match v with Undefined => true | _ => false end.

(** Object literal [{ ...base, k: v }]: a later property replaces an
    earlier one of the same name. *)
Definition set (k : string) (v : val) (o : gmap string val) : gmap string val :=
  <[k := v]> o.

(** Object spread [{ ...base, ...o }]: the properties of [o] win. *)
Definition spread (o base : gmap string val) : gmap string val := o ∪ base.

(** What [JSON.stringify] keeps of an object: a property whose value
    is [undefined] is left out. *)
Definition json_props (o : gmap string val) : gmap string val :=
  omap (fun v => if is_undefined v then None else Some v) o.

(** An [Error] object: its [message] and its [stack]. *)
Record error : Type := Error { message : string; stack : string }.

End Js.

(** ** The state-and-exception monad of one request *)

Module Eff.

Section Monad.
Context {S : Type}.

(** A computation either throws a JavaScript error or returns, and
    threads the state [S] in both cases. *)
Definition M (A : Type) : Type := S -> (Js.error + A) * S.

Definition ret {A} (a : A) : M A := fun s => (inr a, s).

Definition bind {A B} (c : M A) (k : A -> M B) : M B :=
  fun s =>
    match c s with
    | (inl e, s1) => (inl e, s1)
    | (inr a, s1) => k a s1
    end.

Definition throw {A} (e : Js.error) : M A := fun s => (inl e, s).

Definition get : M S := fun s => (inr s, s).

Definition modify (f : S -> S) : M unit := fun s => (inr tt, f s).

(** [try { body } catch (error) { handler error }] *)
Definition try_catch {A} (body : M A) (handler : Js.error -> M A) : M A :=
  fun s =>
    match body s with
    | (inl e, s1) => handler e s1
    | (inr a, s1) => (inr a, s1)
    end.

(** [try { body } catch (error) { handler error } finally { fin }]:
    [fin] runs on every exit of [body] and of [handler]; an error
    thrown by [fin] replaces the pending outcome. *)
Definition try_catch_finally {A}
    (body : M A) (handler : Js.error -> M A) (fin : M unit) : M A :=
  fun s =>
    let '(r, s2) := try_catch body handler s in
    match fin s2 with
    | (inl e, s3) => (inl e, s3)
    | (inr _, s3) => (r, s3)
    end.
End Monad.

Arguments M : clear implicits.

End Eff.

Declare Scope eff_scope.
Delimit Scope eff_scope with eff.
Notation "x <- c ;; k" := (Eff.bind c (fun x => k))
  (at level 100, c at next level, right associativity) : eff_scope.
Notation "c ;; k" := (Eff.bind c (fun _ => k))
  (at level 100, right associativity) : eff_scope.

(** ** Cross-origin policy (server.js, lines 11-31) *)

Module Cors.

(** [Array.prototype.indexOf] on an array of strings: the scan from
    index [i] returns the first index holding [x], or [-1]. *)
Fixpoint indexOf_from (i : Z) (l : list string) (x : string) : Z :=
  match l with
  | [] => (-1)%Z
  | y :: l' => if String.eqb y x then i else indexOf_from (Z.succ i) l' x
  end.

Definition indexOf (l : list string) (x : string) : Z := indexOf_from 0%Z l x.

Definition allowedOrigins : list string :=
  [ "http://localhost:3000";
    "*" ].

(** The arguments the origin function hands to its callback:
    [callback(null, true)] or [callback(new Error(...))]. *)
Inductive verdict : Type :=
| Allow
| Reject (message : string).

(** [!origin] for the value of the [Origin] header, which is a string
    or [undefined]: true when the header is missing and when it is
    the empty string. *)
Definition falsy (origin : option string) : bool :=
  match origin with
  | None => true
  | Some s => String.eqb s ""
  end.

(** [corsOptions.origin] *)
Definition origin (o : option string) : verdict :=
  if falsy o then Allow
  else match o with
       | Some s =>
           if negb (Z.eqb (indexOf allowedOrigins s) (-1)) then Allow
           else Reject "Not allowed by CORS"
       | None => Allow
       end.

(** [corsOptions.methods] and [corsOptions.optionsSuccessStatus] *)
Definition methods : list string := [ "GET" ].
Definition optionsSuccessStatus : N := 200.

End Cors.

(** ** The world outside the handler *)

Module World.

(** What [page.goto] resolves to: an HTTP response object, of which
    the handler calls [status()] and [ok()]. *)
Record http_response : Type :=
  HttpResponse { status : N; ok : bool }.

(** [page.goto] rejects, resolves to [null], or resolves to a response. *)
Inductive goto_outcome : Type :=
| GotoRejects (e : Js.error)
| GotoNull
| GotoResponse (r : http_response).

(** [page.pdf]: the bytes it leaves at the requested path, if any, and
    whether its promise rejects. *)
Record pdf_outcome : Type :=
  PdfOutcome { written : option (list byte); rejected : option Js.error }.

(** The outcomes of the external calls of one request.  An
    [option Js.error] field is [None] when the call returns or its
    promise resolves, and [Some e] when it throws or rejects with [e]. *)
Record t : Type := Make {
  NODE_ENV : option string;          (* process.env.NODE_ENV *)
  dirname : string;                  (* __dirname *)
  randomBytes : list byte;           (* crypto.randomBytes(16) *)
  frames : string;                   (* the call-site lines of a stack trace *)
  files : gmap string (list byte);   (* the filesystem when the request arrives *)
  launch : option Js.error;          (* puppeteer.launch *)
  newPage : option Js.error;         (* browser.newPage *)
  setViewport : option Js.error;     (* page.setViewport *)
  goto : goto_outcome;               (* page.goto *)
  waitForSelector : option Js.error; (* page.waitForSelector *)
  pdf : pdf_outcome;                 (* page.pdf *)
  stat_fault : option Js.error;      (* fs.stat failing on an existing file *)
  readFile_fault : option Js.error;  (* fs.readFile failing on an existing file *)
  unlink_fault : option Js.error;    (* fs.unlink failing on an existing file *)
  close : option Js.error            (* browser.close *)
}.

End World.

(** ** [path.join] *)

Module Path.

(** The segments of a path, separators removed: ["/a//b/"] has the
    segments [""], ["a"], [""], ["b"], [""]. *)
Fixpoint split (s : string) : list string :=
  match s with
  | "" => [""]
  | String c s' =>
      if Ascii.eqb c "/" then "" :: split s'
      else match split s' with
           | seg :: segs => String c seg :: segs
           | [] => [String c ""]
           end
  end.

(** One segment met by [normalizeString]: empty segments and ["."]
    are dropped, [".."] removes the segment before it, or is kept
    when there is none to remove and the path is relative.  The
    segments kept so far are in [stack], last one first. *)
Definition resolve_step (allowAboveRoot : bool) (stack : list string) (seg : string)
    : list string :=
  if String.eqb seg "" || String.eqb seg "." then stack
  else if String.eqb seg ".." then
    match stack with
    | top :: rest =>
        if String.eqb top ".."
        then (if allowAboveRoot then seg :: stack else stack)
        else rest
    | [] => if allowAboveRoot then [seg] else []
    end
  else seg :: stack.

Definition resolve (allowAboveRoot : bool) (segs : list string) : list string :=
  rev (fold_left (resolve_step allowAboveRoot) segs []).

(** Segments joined by ["/"]. *)
Fixpoint concat_sep (segs : list string) : string :=
  match segs with
  | [] => ""
  | seg :: segs' =>
      match segs' with
      | [] => seg
      | _ => seg +:+ "/" +:+ concat_sep segs'
      end
  end.

Definition is_absolute (path : string) : bool :=
  match path with
  | String c _ => Ascii.eqb c "/"
  | "" => false
  end.

Fixpoint trailing_separator (path : string) : bool :=
  match path with
  | "" => false
  | String c s' =>
      match s' with
      | "" => Ascii.eqb c "/"
      | _ => trailing_separator s'
      end
  end.

(** [path.normalize] *)
Definition normalize (path : string) : string :=
  if String.eqb path "" then "."
  else
    let body := concat_sep (resolve (negb (is_absolute path)) (split path)) in
    if String.eqb body "" then
      if is_absolute path then "/"
      else if trailing_separator path then "./" else "."
    else
      (if is_absolute path then "/" else "")
      +:+ body +:+ (if trailing_separator path then "/" else "").

(** [path.join(a, b)]: the arguments that are not empty, joined by
    ["/"] and normalised; ["."] when both are empty. *)
Definition join (a b : string) : string :=
  if String.eqb a "" then normalize b
  else if String.eqb b "" then normalize a
  else normalize (a +:+ "/" +:+ b).

End Path.

(** ** The request handler (server.js, lines 36-198) *)

Module Server.

Import World.
Local Open Scope eff_scope.

(** *** Requests and responses *)

(** [req.query.url]: missing, a string, or an array or object built
    by the query parser.  Arrays and objects are truthy.  Of such a
    value the handler only uses the conversion to a string: [repr] is
    that string, and [None] when the conversion throws, as it does
    for the object [{toString: 'x'}] of the query [?url[toString]=x]. *)
Inductive query : Type :=
| Missing
| Text (s : string)
| Structured (repr : option string).

Record Request : Type := { query_url : query }.

(** [!url] *)
Definition falsy (url : query) : bool :=
  match url with
  | Missing => true
  | Text s => String.eqb s ""
  | Structured _ => false
  end.

(** The string [`${url}`] stands for; [None] when the conversion
    throws. *)
Definition to_string (url : query) : option string :=
  match url with
  | Missing => Some "undefined"
  | Text s => Some s
  | Structured repr => repr
  end.

(** Whether [`${url}`] returns. *)
Definition renders (url : query) : bool :=
  match to_string url with
  | Some _ => true
  | None => false
  end.

Inductive body : Type :=
| Buffer (bytes : list byte)               (* res.send(pdfBuffer) *)
| Json (props : gmap string Js.val).       (* res.json(object) *)

(** The Express response object as the handler leaves it: the status
    set by [res.status] (200 until then), the headers set by
    [res.setHeader], the argument of [res.send] or [res.json]. *)
Record Response : Type := {
  statusCode : N;
  headers : gmap string Js.val;
  sent : option body
}.

Definition fresh_response : Response :=
  {| statusCode := 200; headers := ∅; sent := None |}.

(** *** Events *)

Inductive log_arg : Type :=
| NoArg
| ErrorArg (e : Js.error)
| StringArg (s : string).

Inductive event : Type :=
| ConsoleLog (s : string)
| ConsoleError (s : string) (arg : log_arg)
| RandomBytes (n : N)
| Launch (options : gmap string Js.val)
| NewPage
| SetViewport (viewport : gmap string Js.val)
| Goto (url : query) (options : gmap string Js.val)
| WaitForSelector (selector : string) (options : gmap string Js.val)
| Sleep (ms : N)
| Pdf (options : gmap string Js.val)
| Stat (path : string)
| ReadFile (path : string)
| Unlink (path : string)
| SetTimeout (path : string) (delay : N)
| Close.

(** *** State *)

(** The handler's two locals ([let browser; let tempFilePath;]), the
    response object, the filesystem, the pending deletion timers and
    the trace of external calls, oldest first. *)
Record State : Type := {
  browser : bool;                        (* [true] once assigned *)
  tempFilePath : option string;
  res : Response;
  fs : gmap string (list byte);
  timers : list (string * N);
  trace : list event
}.

Definition initial (w : World.t) : State :=
  {| browser := false; tempFilePath := None; res := fresh_response;
     fs := World.files w; timers := []; trace := [] |}.

Abbreviation M := (Eff.M State).

(** State updates: an event appended to the trace, the two locals
    assigned, the response and the filesystem changed, a timer armed. *)
Definition log (ev : event) (s : State) : State :=
  {| browser := browser s; tempFilePath := tempFilePath s; res := res s;
     fs := fs s; timers := timers s; trace := trace s ++ [ev] |}.

Definition assign_browser (s : State) : State :=
  {| browser := true; tempFilePath := tempFilePath s; res := res s;
     fs := fs s; timers := timers s; trace := trace s |}.

Definition assign_tempFilePath (p : string) (s : State) : State :=
  {| browser := browser s; tempFilePath := Some p; res := res s;
     fs := fs s; timers := timers s; trace := trace s |}.

Definition update_res (f : Response -> Response) (s : State) : State :=
  {| browser := browser s; tempFilePath := tempFilePath s; res := f (res s);
     fs := fs s; timers := timers s; trace := trace s |}.

Definition update_fs (f : gmap string (list byte) -> gmap string (list byte))
    (s : State) : State :=
  {| browser := browser s; tempFilePath := tempFilePath s; res := res s;
     fs := f (fs s); timers := timers s; trace := trace s |}.

Definition arm (p : string) (delay : N) (s : State) : State :=
  {| browser := browser s; tempFilePath := tempFilePath s; res := res s;
     fs := fs s; timers := timers s ++ [(p, delay)]; trace := trace s |}.

Definition disarm_all (s : State) : State :=
  {| browser := browser s; tempFilePath := tempFilePath s; res := res s;
     fs := fs s; timers := []; trace := trace s |}.

Definition emit (ev : event) : M unit := Eff.modify (log ev).
Definition set_browser : M unit := Eff.modify assign_browser.
Definition set_tempFilePath (p : string) : M unit := Eff.modify (assign_tempFilePath p).
Definition set_res (f : Response -> Response) : M unit := Eff.modify (update_res f).
Definition set_fs (f : gmap string (list byte) -> gmap string (list byte)) : M unit :=
  Eff.modify (update_fs f).
Definition add_timer (p : string) (delay : N) : M unit := Eff.modify (arm p delay).

(** An external call: it is recorded, then it returns or throws as
    the world says. *)
Definition call (ev : event) (outcome : option Js.error) : M unit :=
  emit ev ;;
  match outcome with
  | Some e => Eff.throw e
  | None => Eff.ret tt
  end.

Definition console_log (s : string) : M unit := emit (ConsoleLog s).

Definition console_error (s : string) (arg : log_arg) : M unit :=
  emit (ConsoleError s arg).

(** [new Error(message)]: the stack starts with the error's name and
    message, followed by the call-site lines. *)
Definition new_Error (w : World.t) (message : string) : Js.error :=
  Js.Error message ("Error: " +:+ message +:+ frames w).

Definition TypeError (w : World.t) (message : string) : Js.error :=
  Js.Error message ("TypeError: " +:+ message +:+ frames w).

(** The template literal [`prefix${url}`] (lines 83 and 112): a
    [TypeError] when [url] cannot be converted to a string. *)
Definition template (w : World.t) (prefix : string) (url : query) : M string :=
  match to_string url with
  | Some text => Eff.ret (prefix +:+ text)
  | None => Eff.throw (TypeError w "Cannot convert object to primitive value")
  end.

(** The error of a filesystem call on a path that does not exist. *)
Definition ENOENT (w : World.t) (syscall path : string) : Js.error :=
  new_Error w ("ENOENT: no such file or directory, " +:+ syscall
               +:+ " '" +:+ path +:+ "'").

(** *** Temporary files (lines 36-56) *)

(** [path.join] of a directory and a name. *)
Definition path_join (dir name : string) : string := Path.join dir name.

Definition tempDir (w : World.t) : string := path_join (dirname w) "temp".

Definition hex_digit (n : N) : ascii :=
  match n with
  | 0 => "0" | 1 => "1" | 2 => "2" | 3 => "3" | 4 => "4" | 5 => "5"
  | 6 => "6" | 7 => "7" | 8 => "8" | 9 => "9" | 10 => "a" | 11 => "b"
  | 12 => "c" | 13 => "d" | 14 => "e" | _ => "f"
  end%char.

(** [buffer.toString('hex')] *)
Fixpoint toString_hex (buffer : list byte) : string :=
  match buffer with
  | [] => ""
  | b :: rest =>
      String (hex_digit (Byte.to_N b / 16))
        (String (hex_digit (Byte.to_N b mod 16)) (toString_hex rest))
  end.

Definition getTempFilePath (w : World.t) : M string :=
  emit (RandomBytes 16) ;;
  let randomName := toString_hex (randomBytes w) in
  Eff.ret (path_join (tempDir w) (randomName +:+ ".pdf")).

(** [fs.unlink] *)
Definition fs_unlink (w : World.t) (path : string) : M unit :=
  emit (Unlink path) ;;
  s <- Eff.get ;;
  match fs s !! path with
  | None => Eff.throw (ENOENT w "unlink" path)
  | Some _ =>
      match unlink_fault w with
      | Some e => Eff.throw e
      | None => set_fs (delete path)
      end
  end.

(** The function handed to [setTimeout] by [deleteFileAfterDelay]. *)
Definition deletion_callback (w : World.t) (filePath : string) : M unit :=
  Eff.try_catch
    (fs_unlink w filePath ;;
     console_log ("[CLEANUP] Deleted temporary file: " +:+ filePath))
    (fun error =>
       console_error ("[ERROR] Failed to delete temporary file: " +:+ filePath)
         (ErrorArg error)).

(** [deleteFileAfterDelay(filePath, delay = 5000)]: the call only
    arms the timer; [delay] is [None] when the argument is omitted. *)
Definition deleteFileAfterDelay (filePath : string) (delay : option N) : M unit :=
  let delay := default 5000 delay in
  emit (SetTimeout filePath delay) ;;
  add_timer filePath delay.

(** The timers that are pending fire, in the order they were armed,
    each running its callback once.  A timer may fire while the
    finally block still awaits [browser.close], and the one armed
    with delay 0 usually does.  The finally block touches neither the
    filesystem nor the response nor the timers, and the callback
    touches nothing but the filesystem, so both orders leave the same
    state but for the order of the events in the trace.
    [fire_timers] runs the callbacks on the state the handler leaves,
    their events last; where those events fall among the events of
    the finally block is not modelled. *)
Fixpoint run_callbacks (w : World.t) (l : list (string * N)) : M unit :=
  match l with
  | [] => Eff.ret tt
  | (filePath, _) :: l' => deletion_callback w filePath ;; run_callbacks w l'
  end.

Definition fire_timers (w : World.t) : M unit :=
  s <- Eff.get ;;
  Eff.modify disarm_all ;;
  run_callbacks w (timers s).

(** *** Configuration (lines 58-73) *)

Module config.
Definition viewport : gmap string Js.val :=
  {[ "width" := Js.int 1200;
     "height" := Js.int 1800;
     "deviceScaleFactor" := Js.Num 8 1 ]}.

Definition pdf : gmap string Js.val :=
  {[ "scale" := Js.int 1;
     "margin" := Js.Obj
       {[ "top" := Js.Str "20px";
          "right" := Js.Str "20px";
          "bottom" := Js.Str "20px";
          "left" := Js.Str "20px" ]} ]}.
End config.

(** *** Calls on the rendering engine, the filesystem and the response *)

(** The argument of [puppeteer.launch] (lines 91-99). *)
Definition launch_options : gmap string Js.val :=
  {[ "headless" := Js.Str "new";
     "args" := Js.Arr
       [ Js.Str "--no-sandbox";
         Js.Str "--disable-setuid-sandbox";
         Js.Str "--disable-dev-shm-usage";
         Js.Str "--font-render-hinting=none" ] ]}.

(** The second argument of [page.goto] (lines 114-117). *)
Definition goto_options : gmap string Js.val :=
  {[ "waitUntil" := Js.Arr
       [ Js.Str "networkidle0"; Js.Str "load"; Js.Str "domcontentloaded" ];
     "timeout" := Js.int 60000 ]}.

(** The argument of [page.pdf] (lines 138-145): an object literal
    with [config.pdf] spread in the middle. *)
Definition pdf_options (tempFilePath : string) : gmap string Js.val :=
  Js.set "timeout" (Js.int 60000)
    (Js.set "preferCSSPageSize" (Js.Bool true)
       (Js.spread config.pdf
          (Js.set "printBackground" (Js.Bool true)
             (Js.set "format" (Js.Str "A4")
                (Js.set "path" (Js.Str tempFilePath) ∅))))).

Definition page_goto (w : World.t) (url : query) (options : gmap string Js.val)
    : M (option http_response) :=
  emit (Goto url options) ;;
  match goto w with
  | GotoRejects e => Eff.throw e
  | GotoNull => Eff.ret None
  | GotoResponse r => Eff.ret (Some r)
  end.

(** [response.status()]; a [TypeError] when [response] is [null]. *)
Definition response_status (w : World.t) (response : option http_response) : M N :=
  match response with
  | None => Eff.throw (TypeError w "Cannot read properties of null (reading 'status')")
  | Some r => Eff.ret (World.status r)
  end.

(** [response.ok()] *)
Definition response_ok (w : World.t) (response : option http_response) : M bool :=
  match response with
  | None => Eff.throw (TypeError w "Cannot read properties of null (reading 'ok')")
  | Some r => Eff.ret (World.ok r)
  end.

(** [page.pdf(options)]: the engine leaves its bytes at [options.path],
    then the promise resolves or rejects. *)
Definition page_pdf (w : World.t) (options : gmap string Js.val) : M unit :=
  emit (Pdf options) ;;
  match options !! "path", written (pdf w) with
  | Some (Js.Str path), Some bytes => set_fs (insert path bytes)
  | _, _ => Eff.ret tt
  end ;;
  match rejected (pdf w) with
  | Some e => Eff.throw e
  | None => Eff.ret tt
  end.

(** [(await fs.stat(path)).size] *)
Definition fs_stat_size (w : World.t) (path : string) : M N :=
  emit (Stat path) ;;
  s <- Eff.get ;;
  match fs s !! path with
  | None => Eff.throw (ENOENT w "stat" path)
  | Some content =>
      match stat_fault w with
      | Some e => Eff.throw e
      | None => Eff.ret (N.of_nat (length content))
      end
  end.

(** [fs.readFile(path)] *)
Definition fs_readFile (w : World.t) (path : string) : M (list byte) :=
  emit (ReadFile path) ;;
  s <- Eff.get ;;
  match fs s !! path with
  | None => Eff.throw (ENOENT w "open" path)
  | Some content =>
      match readFile_fault w with
      | Some e => Eff.throw e
      | None => Eff.ret content
      end
  end.

Definition res_setHeader (name : string) (value : Js.val) : M unit :=
  set_res (fun r =>
    {| statusCode := statusCode r; headers := <[name := value]> (headers r);
       sent := sent r |}).

Definition res_send (pdfBuffer : list byte) : M unit :=
  set_res (fun r =>
    {| statusCode := statusCode r; headers := headers r;
       sent := Some (Buffer pdfBuffer) |}).

Definition res_status (code : N) : M unit :=
  set_res (fun r =>
    {| statusCode := code; headers := headers r; sent := sent r |}).

(** [res.json(object)] hands over [JSON.stringify(object)]. *)
Definition res_json (object : gmap string Js.val) : M unit :=
  set_res (fun r =>
    {| statusCode := statusCode r; headers := headers r;
       sent := Some (Json (Js.json_props object)) |}).

(** [process.env.NODE_ENV === value] *)
Definition NODE_ENV_is (w : World.t) (value : string) : bool :=
  match NODE_ENV w with
  | Some v => String.eqb v value
  | None => false
  end.

(** *** The handler of [GET /generate-pdf] (lines 74-198) *)

Definition try_block (w : World.t) (req : Request) : M unit :=
  let url := query_url req in
  (if falsy url
   then Eff.throw (new_Error w "URL parameter is required")
   else Eff.ret tt) ;;
  message <- template w "[1] Starting PDF generation for URL: " url ;;
  console_log message ;;
  tempFilePath <- getTempFilePath w ;;
  set_tempFilePath tempFilePath ;;
  console_log ("[1.1] Will use temporary file: " +:+ tempFilePath) ;;
  console_log "[2] Launching browser..." ;;
  call (Launch launch_options) (launch w) ;;
  set_browser ;;
  console_log "[3] Browser launched successfully" ;;
  console_log "[4] Creating new page..." ;;
  call NewPage (newPage w) ;;
  console_log "[5] New page created" ;;
  console_log "[6] Setting viewport..." ;;
  call (SetViewport config.viewport) (setViewport w) ;;
  console_log "[7] Viewport set" ;;
  message <- template w "[8] Navigating to URL: " url ;;
  console_log message ;;
  response <- page_goto w url goto_options ;;
  status <- response_status w response ;;
  console_log ("[9] Page loaded with status: " +:+ pretty status) ;;
  ok <- response_ok w response ;;
  (if negb ok
   then
     console_error ("[ERROR] Failed to load page: " +:+ pretty status) NoArg ;;
     Eff.throw (new_Error w ("Failed to load page: " +:+ pretty status))
   else Eff.ret tt) ;;
  console_log "[10] Waiting for dynamic content..." ;;
  Eff.try_catch
    (call (WaitForSelector "body" {[ "timeout" := Js.int 10000 ]})
          (waitForSelector w) ;;
     emit (Sleep 3000))
    (fun _ =>
       console_log "[WARNING] Timeout waiting for content, proceeding anyway...") ;;
  console_log "[11] Wait complete" ;;
  console_log "[12] Generating PDF..." ;;
  page_pdf w (pdf_options tempFilePath) ;;
  console_log "[13] PDF generated and saved to temporary file" ;;
  size <- fs_stat_size w tempFilePath ;;
  console_log ("[13.1] PDF file size: " +:+ pretty size +:+ " bytes") ;;
  (if size =? 0
   then Eff.throw (new_Error w "Generated PDF file is empty")
   else Eff.ret tt) ;;
  console_log "[14] Reading PDF file..." ;;
  pdfBuffer <- fs_readFile w tempFilePath ;;
  console_log "[15] Setting response headers..." ;;
  res_setHeader "Content-Type" (Js.Str "application/pdf") ;;
  res_setHeader "Content-Disposition" (Js.Str "attachment; filename=generated.pdf") ;;
  res_setHeader "Content-Length" (Js.int (N.of_nat (length pdfBuffer))) ;;
  console_log "[16] Sending PDF response..." ;;
  res_send pdfBuffer ;;
  console_log "[17] PDF sent successfully" ;;
  deleteFileAfterDelay tempFilePath None.

(** The object literal handed to [res.json] (lines 176-180). *)
Definition error_object (w : World.t) (error : Js.error) : gmap string Js.val :=
  {[ "error" := Js.Str "Failed to generate PDF";
     "message" := Js.Str (Js.message error);
     "stack" := if NODE_ENV_is w "development"
                then Js.Str (Js.stack error)
                else Js.Undefined ]}.

Definition catch_block (w : World.t) (error : Js.error) : M unit :=
  console_error "[ERROR] Error in PDF generation:" (ErrorArg error) ;;
  console_error "[ERROR] Stack trace:" (StringArg (Js.stack error)) ;;
  res_status 500 ;;
  res_json (error_object w error) ;;
  s <- Eff.get ;;
  match tempFilePath s with
  | Some p =>
      if negb (String.eqb p "")
      then deleteFileAfterDelay p (Some 0)
      else Eff.ret tt
  | None => Eff.ret tt
  end.

Definition finally_block (w : World.t) : M unit :=
  s <- Eff.get ;;
  if browser s
  then
    console_log "[CLEANUP] Closing browser..." ;;
    Eff.try_catch
      (call Close (close w) ;;
       console_log "[CLEANUP] Browser closed")
      (fun error =>
         console_error "[CLEANUP ERROR] Failed to close browser:" (ErrorArg error))
  else Eff.ret tt.

Definition generate_pdf (w : World.t) (req : Request) : M unit :=
  Eff.try_catch_finally (try_block w req) (catch_block w) (finally_block w).

(** One request, from the arrival of the request to the settling of
    the handler's promise. *)
Definition handle (w : World.t) (req : Request) : (Js.error + unit) * State :=
  generate_pdf w req (initial w).

End Server.

(** ** Vocabulary of the properties *)

Module Props.

Import World Server.

(** The path [getTempFilePath] returns in world [w]. *)
Definition temp_file (w : World.t) : string :=
  path_join (tempDir w) (toString_hex (randomBytes w) +:+ ".pdf").

(** Number of events of a trace that satisfy [p]. *)
Fixpoint count (p : event -> bool) (l : list event) : nat :=
  match l with
  | [] => 0%nat
  | ev :: l' => if p ev then S (count p l') else count p l'
  end.

Definition is_launch (ev : event) : bool :=
  match ev with Launch _ => true | _ => false end.
Definition is_close (ev : event) : bool :=
  match ev with Close => true | _ => false end.
Definition is_allocation (ev : event) : bool :=
  match ev with RandomBytes _ => true | _ => false end.
Definition is_setTimeout (ev : event) : bool :=
  match ev with SetTimeout _ _ => true | _ => false end.
Definition is_pdf (ev : event) : bool :=
  match ev with Pdf _ => true | _ => false end.
Definition is_sleep (ev : event) : bool :=
  match ev with Sleep _ => true | _ => false end.
Definition is_wait (ev : event) : bool :=
  match ev with WaitForSelector _ _ => true | _ => false end.

(** The response is a document: [res.send(pdfBuffer)] was the last
    write of a body. *)
Definition succeeded (s : State) : bool :=
  match sent (res s) with
  | Some (Buffer _) => true
  | _ => false
  end.

(** The properties of the JSON body of the response, if it has one. *)
Definition json_body (s : State) : gmap string Js.val :=
  match sent (res s) with
  | Some (Json props) => props
  | _ => ∅
  end.

(** The response the success path builds around [bytes] (lines 161-167). *)
Definition pdf_response (bytes : list byte) : Response :=
  {| statusCode := 200;
     headers :=
       <["Content-Length" := Js.int (N.of_nat (length bytes))]>
         (<["Content-Disposition" := Js.Str "attachment; filename=generated.pdf"]>
            (<["Content-Type" := Js.Str "application/pdf"]> ∅));
     sent := Some (Buffer bytes) |}.

(** The response the catch block builds for [error] (lines 176-180). *)
Definition error_response (w : World.t) (error : Js.error) : Response :=
  {| statusCode := 500;
     headers := ∅;
     sent := Some (Json (Js.json_props (error_object w error))) |}.

(** The request gets past lines 79-83: its [url] is truthy and can
    be converted to a string.  Then, and only then, the handler
    calls [getTempFilePath]. *)
Definition allocated (req : Request) : bool :=
  negb (falsy (query_url req)) && renders (query_url req).

(** The request passes validation, the engine starts, and navigation
    ends with a response the engine reports as successful: the
    handler reaches the readiness wait (line 127). *)
Definition navigated (w : World.t) (req : Request) : bool :=
  allocated req
  && bool_decide (launch w = None)
  && bool_decide (newPage w = None)
  && bool_decide (setViewport w = None)
  && match goto w with
     | GotoResponse r => World.ok r
     | _ => false
     end.

(** The world [w] with another outcome of [browser.close]. *)
Definition with_close (c : option Js.error) (w : World.t) : World.t :=
  {| NODE_ENV := NODE_ENV w; dirname := dirname w; randomBytes := randomBytes w;
     frames := frames w; files := files w; launch := launch w;
     newPage := newPage w; setViewport := setViewport w; goto := goto w;
     waitForSelector := waitForSelector w; pdf := pdf w;
     stat_fault := stat_fault w; readFile_fault := readFile_fault w;
     unlink_fault := unlink_fault w; close := c |}.

(** The process is not in production mode. *)
Definition non_production (w : World.t) : Prop :=
  NODE_ENV w ≠ Some "production".

(** What the catch block arms: the zero-delay deletion of the
    temporary file, when one was allocated (lines 183-185). *)
Definition armed_on_failure (s : State) : list (string * N) :=
  match tempFilePath s with
  | Some p => if negb (String.eqb p "") then [(p, 0)] else []
  | None => []
  end.

(** The state the catch block leaves when it is entered in [s] with
    [error]. *)
Definition caught (w : World.t) (error : Js.error) (s : State) : State :=
  {| browser := browser s;
     tempFilePath := tempFilePath s;
     res := {| statusCode := 500; headers := headers (res s);
               sent := Some (Json (Js.json_props (error_object w error))) |};
     fs := fs s;
     timers := timers s ++ armed_on_failure s;
     trace := trace s
              ++ [ ConsoleError "[ERROR] Error in PDF generation:" (ErrorArg error);
                   ConsoleError "[ERROR] Stack trace:" (StringArg (Js.stack error)) ]
              ++ map (fun t => SetTimeout t.1 t.2) (armed_on_failure s) |}.

(** What [browser.close] leaves in the log (lines 191-195). *)
Definition close_event (w : World.t) : event :=
  match close w with
  | None => ConsoleLog "[CLEANUP] Browser closed"
  | Some error =>
      ConsoleError "[CLEANUP ERROR] Failed to close browser:" (ErrorArg error)
  end.

(** The state the finally block leaves when it is entered in [s]. *)
Definition closed (w : World.t) (s : State) : State :=
  if browser s
  then log (close_event w)
         (log Close (log (ConsoleLog "[CLEANUP] Closing browser...") s))
  else s.

(** [wp c Q s]: running [c] from [s] ends, by return or by throw, in
    an outcome and a state that satisfy [Q]. *)
Definition wp {A} (c : M A) (Q : Js.error + A -> State -> Prop) (s : State) : Prop :=
  Q (c s).1 (c s).2.

End Props.

(** ** Concrete worlds and requests *)

Module Examples.

Import World Server.

Definition timeout_error : Js.error :=
  Js.Error "Waiting failed: 10000ms exceeded"
           "TimeoutError: Waiting failed: 10000ms exceeded".

Definition protocol_error : Js.error :=
  Js.Error "Protocol error: Target closed"
           "ProtocolError: Protocol error: Target closed".

(** The bytes [%PDF] *)
Definition pdf_bytes : list byte := [x25; x50; x44; x46].

(** A world given by its mode, the outcomes of launch, navigation,
    readiness wait, export and teardown; everything else succeeds
    and the temporary directory is empty. *)
Definition world
    (mode : option string) (launched : option Js.error)
    (navigation : goto_outcome) (waited : option Js.error)
    (exported : pdf_outcome) (closing : option Js.error) : World.t :=
  {| NODE_ENV := mode;
     dirname := "/srv/app";
     randomBytes := [x00; x01; x02; x03; x04; x05; x06; x07;
                     xf8; xf9; xfa; xfb; xfc; xfd; xfe; xff];
     frames := " at /srv/app/server.js";
     files := ∅;
     launch := launched;
     newPage := None;
     setViewport := None;
     goto := navigation;
     waitForSelector := waited;
     pdf := exported;
     stat_fault := None;
     readFile_fault := None;
     unlink_fault := None;
     close := closing |}.

Definition page_ok : goto_outcome := GotoResponse (HttpResponse 200 true).
Definition page_not_found : goto_outcome := GotoResponse (HttpResponse 404 false).
Definition exported_pdf : pdf_outcome := PdfOutcome (Some pdf_bytes) None.

Definition happy : World.t := world None None page_ok None exported_pdf None.
Definition close_fails : World.t :=
  world None None page_ok None exported_pdf (Some protocol_error).
Definition launch_fails : World.t :=
  world None (Some protocol_error) page_ok None exported_pdf None.
Definition not_found : World.t :=
  world None None page_not_found None exported_pdf None.
Definition selector_missing : World.t :=
  world None None page_ok (Some timeout_error) exported_pdf None.
Definition empty_export : World.t :=
  world None None page_ok None (PdfOutcome (Some []) None) None.
Definition export_fails : World.t :=
  world None None page_ok None (PdfOutcome None (Some protocol_error)) None.
Definition staging : World.t :=
  world (Some "test") None page_ok None exported_pdf None.
Definition development : World.t :=
  world (Some "development") None page_ok None exported_pdf None.

Definition example_request : Request := {| query_url := Text "https://example.com" |}.
Definition request_without_url : Request := {| query_url := Missing |}.
Definition request_with_empty_url : Request := {| query_url := Text "" |}.

(** The request [?url[toString]=x]. *)
Definition request_with_object_url : Request := {| query_url := Structured None |}.

End Examples.

(** ** Vocabulary of the further properties *)

Module Cover.

Import World Server Props.

Definition is_newPage (ev : event) : bool :=
  match ev with NewPage => true | _ => false end.
Definition is_setViewport (ev : event) : bool :=
  match ev with SetViewport _ => true | _ => false end.
Definition is_goto (ev : event) : bool :=
  match ev with Goto _ _ => true | _ => false end.

(** The events of a trace that are not console output: the calls of
    [crypto.randomBytes], of [puppeteer.launch] and the methods of
    the browser and of the page, of [fs.stat], [fs.readFile] and
    [fs.unlink], and of [setTimeout]. *)
Definition is_console (ev : event) : bool :=
  match ev with ConsoleLog _ | ConsoleError _ _ => true | _ => false end.
Definition calls (l : list event) : list event :=
  List.filter (fun ev => negb (is_console ev)) l.

(** Those calls of the try block, up to [fs.readFile], in the order
    of the source (lines 86-157); the settle delay is only reached
    when the selector was found. *)
Definition script (w : World.t) (req : Request) : list event :=
  [ RandomBytes 16; Launch launch_options; NewPage;
    SetViewport config.viewport; Goto (query_url req) goto_options;
    WaitForSelector "body" {[ "timeout" := Js.int 10000 ]} ]
  ++ match waitForSelector w with
     | None => [ Sleep 3000 ]
     | Some _ => []
     end
  ++ [ Pdf (pdf_options (temp_file w)); Stat (temp_file w); ReadFile (temp_file w) ].

(** The file at the temporary path once [page.pdf] is over: what the
    engine wrote, or else what was there before. *)
Definition exported_file (w : World.t) : option (list byte) :=
  match written (pdf w) with
  | Some bytes => Some bytes
  | None => files w !! temp_file w
  end.

(** The characters [0-9a-f]. *)
Definition is_hex_digit (c : ascii) : bool :=
  existsb (Ascii.eqb c) (String.list_ascii_of_string "0123456789abcdef").

Fixpoint string_forall (p : ascii -> bool) (s : string) : bool :=
  match s with
  | EmptyString => true
  | String c s' => p c && string_forall p s'
  end.

(** A path segment that names a file or a directory: not empty,
    neither ["."] nor [".."], and without separator. *)
Definition plain (seg : string) : bool :=
  negb (String.eqb seg "") && negb (String.eqb seg ".") && negb (String.eqb seg "..")
  && string_forall (fun c => negb (Ascii.eqb c "/")) seg.

(** The directory part of the paths [path.join] builds under [d]. *)
Definition directory (d : string) : string :=
  (if Path.is_absolute d then "/" else "")
  +:+ match Path.resolve (negb (Path.is_absolute d)) (Path.split d) with
      | [] => ""
      | l => Path.concat_sep l +:+ "/"
      end.

(** The paths of a list of armed timers. *)
Definition armed_paths (l : list (string * N)) : list string := map fst l.

(** Worlds with another filesystem, another outcome of
    [browser.newPage], of [page.setViewport] or of [fs.unlink]. *)
Definition with_files (f : gmap string (list byte)) (w : World.t) : World.t :=
  {| NODE_ENV := NODE_ENV w; dirname := dirname w; randomBytes := randomBytes w;
     frames := frames w; files := f; launch := launch w;
     newPage := newPage w; setViewport := setViewport w; goto := goto w;
     waitForSelector := waitForSelector w; pdf := pdf w;
     stat_fault := stat_fault w; readFile_fault := readFile_fault w;
     unlink_fault := unlink_fault w; close := close w |}.

Definition with_newPage (o : option Js.error) (w : World.t) : World.t :=
  {| NODE_ENV := NODE_ENV w; dirname := dirname w; randomBytes := randomBytes w;
     frames := frames w; files := files w; launch := launch w;
     newPage := o; setViewport := setViewport w; goto := goto w;
     waitForSelector := waitForSelector w; pdf := pdf w;
     stat_fault := stat_fault w; readFile_fault := readFile_fault w;
     unlink_fault := unlink_fault w; close := close w |}.

Definition with_setViewport (o : option Js.error) (w : World.t) : World.t :=
  {| NODE_ENV := NODE_ENV w; dirname := dirname w; randomBytes := randomBytes w;
     frames := frames w; files := files w; launch := launch w;
     newPage := newPage w; setViewport := o; goto := goto w;
     waitForSelector := waitForSelector w; pdf := pdf w;
     stat_fault := stat_fault w; readFile_fault := readFile_fault w;
     unlink_fault := unlink_fault w; close := close w |}.

Definition with_unlink_fault (o : option Js.error) (w : World.t) : World.t :=
  {| NODE_ENV := NODE_ENV w; dirname := dirname w; randomBytes := randomBytes w;
     frames := frames w; files := files w; launch := launch w;
     newPage := newPage w; setViewport := setViewport w; goto := goto w;
     waitForSelector := waitForSelector w; pdf := pdf w;
     stat_fault := stat_fault w; readFile_fault := readFile_fault w;
     unlink_fault := o; close := close w |}.

Definition permission_error : Js.error :=
  Js.Error "EACCES: permission denied" "Error: EACCES: permission denied".

(** Navigation that times out, and navigation that resolves to [null]. *)
Definition navigation_rejects : World.t :=
  Examples.world None None (GotoRejects Examples.timeout_error) None
    Examples.exported_pdf None.
Definition navigation_null : World.t :=
  Examples.world None None GotoNull None Examples.exported_pdf None.

(** A temporary directory that already holds a file of another request. *)
Definition other_file : string := "/srv/app/temp/ffffffffffffffffffffffffffffffff.pdf".
Definition busy : World.t :=
  with_files {[ other_file := Examples.pdf_bytes ]} Examples.happy.

(** A world in which [fs.unlink] is refused, and a state in which the
    deletion of an existing file is armed. *)
Definition unlink_refused : World.t :=
  with_unlink_fault (Some permission_error) busy.
Definition armed_state : State :=
  {| browser := false; tempFilePath := Some other_file; res := fresh_response;
     fs := {[ other_file := Examples.pdf_bytes ]};
     timers := [(other_file, 0)]; trace := [] |}.

End Cover.

(** * Proofs *)

Module Logic.

Import World Server Props.
Local Open Scope eff_scope.

(** ** Rules of the weakest-precondition calculus *)

Section Rules.
Context {A B : Type}.
Implicit Types (Q : Js.error + A -> State -> Prop) (s : State).

Lemma wp_ret (a : A) Q s : Q (inr a) s -> wp (Eff.ret a) Q s.
Proof. exact id. Qed.

Lemma wp_throw (e : Js.error) Q s : Q (inl e) s -> wp (Eff.throw e) Q s.
Proof. exact id. Qed.

Lemma wp_bind (c : M B) (k : B -> M A) Q s :
  wp c (fun r s' => match r with
                    | inl e => Q (inl e) s'
                    | inr b => wp (k b) Q s'
                    end) s ->
  wp (Eff.bind c k) Q s.
Proof. unfold wp, Eff.bind. destruct (c s) as [[e|b] s']; exact id. Qed.

Lemma wp_try_catch (body : M A) (handler : Js.error -> M A) Q s :
  wp body (fun r s' => match r with
                       | inl e => wp (handler e) Q s'
                       | inr a => Q (inr a) s'
                       end) s ->
  wp (Eff.try_catch body handler) Q s.
Proof. unfold wp, Eff.try_catch. destruct (body s) as [[e|a] s']; exact id. Qed.

Lemma wp_try_catch_finally
    (body : M A) (handler : Js.error -> M A) (fin : M unit) Q s :
  wp (Eff.try_catch body handler)
     (fun r s2 => wp fin (fun r3 s3 => match r3 with
                                       | inl e => Q (inl e) s3
                                       | inr _ => Q r s3
                                       end) s2) s ->
  wp (Eff.try_catch_finally body handler fin) Q s.
Proof.
  unfold wp, Eff.try_catch_finally.
  destruct (Eff.try_catch body handler s) as [r s2]; cbn.
  destruct (fin s2) as [[e|u] s3]; exact id.
Qed.
End Rules.

Lemma wp_get (Q : Js.error + State -> State -> Prop) s :
  Q (inr s) s -> wp Eff.get Q s.
Proof. exact id. Qed.

Lemma wp_modify (f : State -> State) (Q : Js.error + unit -> State -> Prop) s :
  Q (inr tt) (f s) -> wp (Eff.modify f) Q s.
Proof. exact id. Qed.

(** ** The catch block and the finally block as state transformers *)

Lemma catch_block_run w error s :
  catch_block w error s = (inr tt, caught w error s).
Proof.
  destruct s as [b [p|] r f tm tr];
    cbv [catch_block caught armed_on_failure
         Eff.bind Eff.get Eff.modify Eff.ret console_error emit res_status
         res_json set_res deleteFileAfterDelay add_timer
         log update_res arm tempFilePath browser res fs timers trace
         statusCode headers sent default from_option id negb map fst snd];
    [destruct (String.eqb p "")|];
    rewrite ?app_nil_r, <- ?app_assoc; reflexivity.
Qed.

Lemma finally_block_run w s : finally_block w s = (inr tt, closed w s).
Proof.
  unfold finally_block, closed, close_event.
  cbv [Eff.bind Eff.get Eff.try_catch call console_log console_error emit
       Eff.modify Eff.ret Eff.throw].
  destruct (browser s); [|reflexivity].
  destruct (close w); reflexivity.
Qed.

Lemma wp_catch_block w error (Q : Js.error + unit -> State -> Prop) s :
  Q (inr tt) (caught w error s) -> wp (catch_block w error) Q s.
Proof. unfold wp. rewrite catch_block_run. exact id. Qed.

Lemma wp_finally_block w (Q : Js.error + unit -> State -> Prop) s :
  Q (inr tt) (closed w s) -> wp (finally_block w) Q s.
Proof. unfold wp. rewrite finally_block_run. exact id. Qed.

(** Every property of a request is a postcondition of the handler run
    from the initial state. *)
Lemma wp_handle w req (Q : Js.error + unit -> State -> Prop) :
  wp (generate_pdf w req) Q (initial w) -> Q (handle w req).1 (handle w req).2.
Proof. exact id. Qed.

(** ** Symbolic execution of the handler *)

Lemma pdf_options_path p : pdf_options p !! "path" = Some (Js.Str p).
Proof. reflexivity. Qed.

Lemma append_nil_r (s : string) : s +:+ "" = s.
Proof.
  induction s as [|c s IH]; [reflexivity|].
  change (String c (s +:+ "") = String c s). by rewrite IH.
Qed.

Lemma append_assoc (s t u : string) : (s +:+ t) +:+ u = s +:+ (t +:+ u).
Proof.
  induction s as [|c s IH]; [reflexivity|].
  change (String c ((s +:+ t) +:+ u) = String c (s +:+ (t +:+ u))).
  f_equal. exact IH.
Qed.

Lemma append_eq_nil (s t : string) : s +:+ t = "" -> s = "" /\ t = "".
Proof. destruct s; [auto|discriminate]. Qed.

Lemma eqb_false (s t : string) : s <> t -> String.eqb s t = false.
Proof. by intros ?%String.eqb_neq. Qed.

(** [path.normalize] never returns the empty string. *)
Lemma normalize_nonempty path : Path.normalize path <> "".
Proof.
  unfold Path.normalize. destruct (String.eqb path ""); [discriminate|]. cbv zeta.
  destruct (String.eqb_spec
              (Path.concat_sep
                 (Path.resolve (negb (Path.is_absolute path)) (Path.split path))) "")
    as [_|Hbody].
  - destruct (Path.is_absolute path), (Path.trailing_separator path); discriminate.
  - intros [_ [H _]%append_eq_nil]%append_eq_nil. contradiction.
Qed.

(** A path built by [path.join] is truthy. *)
Lemma path_join_nonempty dir name : String.eqb (path_join dir name) "" = false.
Proof.
  apply eqb_false. unfold path_join, Path.join.
  destruct (String.eqb dir ""); [|destruct (String.eqb name "")];
    apply normalize_nonempty.
Qed.

Lemma renders_inv url : renders url = true -> exists text, to_string url = Some text.
Proof. unfold renders. destruct (to_string url) as [text|]; [eauto|discriminate]. Qed.

Lemma allocated_inv req :
  allocated req = true ->
  falsy (query_url req) = false /\ exists text, to_string (query_url req) = Some text.
Proof.
  unfold allocated. rewrite andb_true_iff, negb_true_iff.
  intros [Hurl Hrenders]. split; [exact Hurl|]. by apply renders_inv.
Qed.

Ltac head_of t := lazymatch t with ?f _ => head_of f | _ => t end.

Ltac wp_simpl :=
  cbv beta iota;
  cbn [browser tempFilePath res fs timers trace statusCode headers sent
       log assign_browser assign_tempFilePath update_res update_fs arm disarm_all
       caught closed armed_on_failure map fst snd World.status World.ok
       app negb default from_option id].

Ltac wp_case x :=
  first [ match goal with H : x = _ |- _ => rewrite H end
        | destruct x eqn:? ].

Ltac wp_step :=
  lazymatch goal with
  | |- wp (Eff.bind _ _) _ _ => apply wp_bind
  | |- wp (Eff.ret _) _ _ => apply wp_ret
  | |- wp (Eff.throw _) _ _ => apply wp_throw
  | |- wp Eff.get _ _ => apply wp_get
  | |- wp (Eff.modify _) _ _ => apply wp_modify
  | |- wp (Eff.try_catch_finally _ _ _) _ _ => apply wp_try_catch_finally
  | |- wp (Eff.try_catch _ _) _ _ => apply wp_try_catch
  | |- wp (catch_block _ _) _ _ =>
      apply wp_catch_block;
      unfold caught, armed_on_failure;
      wp_simpl;
      rewrite ?path_join_nonempty
  | |- wp (finally_block _) _ _ => apply wp_finally_block
  | |- wp (match pdf_options _ !! "path" with _ => _ end) _ _ =>
      rewrite pdf_options_path
  | |- wp (match <[?p := _]> _ !! ?p with _ => _ end) _ _ =>
      rewrite lookup_insert_eq
  | |- wp (if ?b then _ else _) _ _ => wp_case b
  | |- wp (match ?x with _ => _ end) _ _ => wp_case x
  | |- wp ?c _ _ => let h := head_of c in unfold h
  end; wp_simpl.

Ltac wp_run := unfold initial; repeat wp_step.

End Logic.

(** * The orchestration and cleanup contract *)

Module Contract.

Import World Server Props Logic.

(** ** General facts about the handler *)

(** The handler is the try block, then the catch block if the try
    block threw, then the finally block; its promise always resolves. *)
Lemma handle_decompose w req :
  handle w req =
    (inr tt,
     closed w match try_block w req (initial w) with
              | (inl error, s) => caught w error s
              | (inr _, s) => s
              end).
Proof.
  unfold handle, generate_pdf, Eff.try_catch_finally, Eff.try_catch.
  destruct (try_block w req (initial w)) as [[error|[]] s].
  - rewrite catch_block_run, finally_block_run. reflexivity.
  - rewrite finally_block_run. reflexivity.
Qed.

Lemma handle_returns w req : (handle w req).1 = inr tt.
Proof. rewrite handle_decompose. reflexivity. Qed.

(** The finally block touches the trace only. *)
Lemma closed_frame w s :
  res (closed w s) = res s /\ timers (closed w s) = timers s
  /\ fs (closed w s) = fs s /\ browser (closed w s) = browser s
  /\ tempFilePath (closed w s) = tempFilePath s.
Proof. unfold closed. destruct (browser s) eqn:Hb; cbn; rewrite ?Hb; auto. Qed.

(** The outcome of [browser.close] reaches the log and nothing else. *)
Lemma handle_with_close c w req :
  res (handle (with_close c w) req).2 = res (handle w req).2
  /\ timers (handle (with_close c w) req).2 = timers (handle w req).2
  /\ fs (handle (with_close c w) req).2 = fs (handle w req).2.
Proof.
  rewrite !handle_decompose. cbn [snd].
  replace (try_block (with_close c w) req (initial (with_close c w)))
    with (try_block w req (initial w)) by (destruct w; reflexivity).
  destruct (try_block w req (initial w)) as [[error|[]] s].
  - replace (caught (with_close c w) error s) with (caught w error s)
      by (destruct w; reflexivity).
    destruct (closed_frame (with_close c w) (caught w error s)) as (-> & -> & -> & _).
    destruct (closed_frame w (caught w error s)) as (-> & -> & -> & _).
    auto.
  - destruct (closed_frame (with_close c w) s) as (-> & -> & -> & _).
    destruct (closed_frame w s) as (-> & -> & -> & _).
    auto.
Qed.

Lemma close_event_is_log w :
  is_launch (close_event w) = false /\ is_close (close_event w) = false
  /\ is_allocation (close_event w) = false /\ is_setTimeout (close_event w) = false
  /\ is_pdf (close_event w) = false /\ is_sleep (close_event w) = false
  /\ is_wait (close_event w) = false.
Proof. unfold close_event. destruct (close w); cbn; auto 10. Qed.

Ltac elem_of_trace :=
  repeat first [ apply list_elem_of_here | apply list_elem_of_further ].

Ltac count_events :=
  cbn [count is_launch is_close is_allocation is_setTimeout is_pdf is_sleep is_wait];
  repeat match goal with
  | |- context [?p (close_event ?w)] =>
      first [ rewrite (proj1 (close_event_is_log w))
            | rewrite (proj1 (proj2 (close_event_is_log w)))
            | rewrite (proj1 (proj2 (proj2 (close_event_is_log w))))
            | rewrite (proj1 (proj2 (proj2 (proj2 (close_event_is_log w)))))
            | rewrite (proj1 (proj2 (proj2 (proj2 (proj2 (close_event_is_log w))))))
            | rewrite (proj1 (proj2 (proj2 (proj2 (proj2 (proj2 (close_event_is_log w)))))))
            | rewrite (proj2 (proj2 (proj2 (proj2 (proj2 (proj2 (close_event_is_log w))))))) ]
  end.

(** ** Teardown of the rendering session *)

(** C1. Whenever the handler created a rendering session (its local
    [browser] was assigned), [puppeteer.launch] was called once and
    [browser.close] is called exactly once, whatever the exit path;
    the handler's promise resolves; a failure of [browser.close] is
    caught and written to the error log; and the response, the armed
    timers and the filesystem are the ones of the same request with
    any other outcome of [browser.close]. *)
Theorem session_torn_down_once (w : World.t) (req : Request) :
  browser (handle w req).2 = true ->
  (falsy (query_url req) = false /\ launch w = None)
  /\ count is_launch (trace (handle w req).2) = 1%nat
  /\ count is_close (trace (handle w req).2) = 1%nat
  /\ (handle w req).1 = inr tt
  /\ (forall error, close w = Some error ->
        ConsoleError "[CLEANUP ERROR] Failed to close browser:" (ErrorArg error)
          ∈ trace (handle w req).2)
  /\ (forall c, (handle (with_close c w) req).1 = inr tt
                /\ res (handle (with_close c w) req).2 = res (handle w req).2).
Proof.
  intros Hb.
  cut ((falsy (query_url req) = false /\ launch w = None)
       /\ count is_launch (trace (handle w req).2) = 1%nat
       /\ count is_close (trace (handle w req).2) = 1%nat
       /\ close_event w ∈ trace (handle w req).2).
  { intros (Hcreated & Hlaunch & Hclose & Hlog).
    repeat split; try tauto.
    - apply handle_returns.
    - intros error Herror. unfold close_event in Hlog.
      rewrite Herror in Hlog. exact Hlog.
    - apply handle_returns.
    - apply handle_with_close. }
  revert Hb.
  apply (wp_handle w req (fun _ s =>
    browser s = true ->
    (falsy (query_url req) = false /\ launch w = None)
    /\ count is_launch (trace s) = 1%nat
    /\ count is_close (trace s) = 1%nat
    /\ close_event w ∈ trace s)).
  wp_run; intros Hb; try discriminate Hb;
    count_events; repeat split; auto; elem_of_trace.
Qed.

Lemma session_torn_down_once_witness :
  count is_close (trace (handle Examples.close_fails Examples.example_request).2) = 1%nat
  /\ count is_close (trace (handle Examples.not_found Examples.example_request).2) = 1%nat.
Proof.
  split.
  - apply (session_torn_down_once Examples.close_fails Examples.example_request).
    reflexivity.
  - apply (session_torn_down_once Examples.not_found Examples.example_request).
    reflexivity.
Defined.

(** ** The error envelope *)

Lemma json_props_lookup (o : gmap string Js.val) k :
  Js.json_props o !! k =
    match o !! k with
    | Some v => if Js.is_undefined v then None else Some v
    | None => None
    end.
Proof. unfold Js.json_props. rewrite lookup_omap. destruct (o !! k); reflexivity. Qed.

Lemma error_envelope w error :
  Js.json_props (error_object w error) !! "error" = Some (Js.Str "Failed to generate PDF")
  /\ Js.json_props (error_object w error) !! "message" = Some (Js.Str (Js.message error))
  /\ Js.json_props (error_object w error) !! "stack" =
       (if NODE_ENV_is w "development" then Some (Js.Str (Js.stack error)) else None)
  /\ dom (Js.json_props (error_object w error)) =
       {[ "error"; "message" ]} ∪ (if NODE_ENV_is w "development" then {[ "stack" ]} else ∅).
Proof.
  rewrite !json_props_lookup. unfold error_object.
  destruct (NODE_ENV_is w "development"); repeat split; reflexivity.
Qed.

(** ** The two outcomes of a request *)

Lemma nonempty_of_size (bytes : list byte) :
  (N.of_nat (length bytes) =? 0) = false -> bytes <> [].
Proof. intros H ->. discriminate H. Qed.

(** Every request ends in one of two ways.  Either the document was
    sent: the response is the PDF response around the non-empty
    content of the temporary file, and the deletion of that file is
    armed with the default delay.  Or the catch block answered: the
    response is the error response of the error thrown, and the
    deletion is armed with no delay when the path had been
    allocated, and not armed otherwise.  Each armed timer is one
    [setTimeout] call of the trace. *)
Lemma handle_outcome w req :
  count is_setTimeout (trace (handle w req).2) = length (timers (handle w req).2)
  /\ ((allocated req = true
       /\ exists bytes,
            bytes <> []
            /\ res (handle w req).2 = pdf_response bytes
            /\ timers (handle w req).2 = [(temp_file w, 5000)]
            /\ fs (handle w req).2 !! temp_file w = Some bytes)
      \/ (exists error,
            res (handle w req).2 = error_response w error
            /\ timers (handle w req).2 =
                 if allocated req then [(temp_file w, 0)] else [])).
Proof.
  apply (wp_handle w req (fun _ s =>
    count is_setTimeout (trace s) = length (timers s)
    /\ ((allocated req = true
         /\ exists bytes,
              bytes <> [] /\ res s = pdf_response bytes
              /\ timers s = [(temp_file w, 5000)]
              /\ fs s !! temp_file w = Some bytes)
        \/ (exists error,
              res s = error_response w error
              /\ timers s = if allocated req then [(temp_file w, 0)] else [])))).
  unfold allocated, renders.
  wp_run.
  all: cbn [negb andb].
  all: (split; [count_events; reflexivity|]).
  all: try (right; eexists; split; reflexivity).
  all: left; split; [reflexivity|]; eexists;
    (split; [eapply nonempty_of_size; eassumption|]);
    (split; [reflexivity|]); (split; [reflexivity|]);
    first [ apply lookup_insert_eq | assumption ].
Qed.

Lemma succeeded_pdf_response s bytes :
  res s = pdf_response bytes -> succeeded s = true /\ statusCode (res s) = 200.
Proof. unfold succeeded. intros ->. split; reflexivity. Qed.

Lemma succeeded_error_response w s error :
  res s = error_response w error ->
  succeeded s = false /\ statusCode (res s) = 500
  /\ json_body s = Js.json_props (error_object w error).
Proof. unfold succeeded, json_body. intros ->. repeat split; reflexivity. Qed.

(** ** Deletion of the temporary file *)

(** C2, as the code has it.  For every request whose [url] parameter
    is present, not empty and convertible to a string, so that the
    handler allocates a temporary path, the deletion of the
    temporary file is scheduled exactly once: with the default delay
    of 5000 ms when the document was sent, with delay 0 when the
    request failed.  For every other request, which fails before the
    path is allocated, no deletion is scheduled. *)
Theorem deletion_scheduled_once (w : World.t) (req : Request) :
  (allocated req = true ->
   timers (handle w req).2
     = [(temp_file w, if succeeded (handle w req).2 then 5000 else 0)]
   /\ count is_setTimeout (trace (handle w req).2) = 1%nat
   /\ statusCode (res (handle w req).2)
        = (if succeeded (handle w req).2 then 200 else 500))
  /\ (allocated req = false ->
      timers (handle w req).2 = []
      /\ count is_setTimeout (trace (handle w req).2) = 0%nat
      /\ succeeded (handle w req).2 = false).
Proof.
  destruct (handle_outcome w req) as [Hcount [(Hpresent & bytes & _ & Hres & Htimers & _)
                                             | (error & Hres & Htimers)]].
  - destruct (succeeded_pdf_response _ _ Hres) as [-> ->].
    rewrite Hcount, Htimers. split; [auto|congruence].
  - destruct (succeeded_error_response _ _ _ Hres) as (-> & -> & _).
    rewrite Hcount, Htimers. split; intros ->; auto.
Qed.

Lemma deletion_scheduled_once_witness :
  timers (handle Examples.happy Examples.example_request).2
    = [("/srv/app/temp/0001020304050607f8f9fafbfcfdfeff.pdf", 5000)]
  /\ timers (handle Examples.not_found Examples.example_request).2
    = [("/srv/app/temp/0001020304050607f8f9fafbfcfdfeff.pdf", 0)]
  /\ timers (handle Examples.happy Examples.request_without_url).2 = []
  /\ timers (handle Examples.happy Examples.request_with_object_url).2 = [].
Proof.
  split; [|split; [|split]].
  - apply (proj1 (deletion_scheduled_once Examples.happy Examples.example_request)).
    reflexivity.
  - apply (proj1 (deletion_scheduled_once Examples.not_found Examples.example_request)).
    reflexivity.
  - apply (proj2 (deletion_scheduled_once Examples.happy Examples.request_without_url)).
    reflexivity.
  - apply (proj2 (deletion_scheduled_once Examples.happy Examples.request_with_object_url)).
    reflexivity.
Defined.

(** C2, as stated, fails for a request without [url]: the handler
    answers with the error response and schedules no deletion. *)
Lemma no_deletion_without_url :
  falsy (query_url Examples.request_without_url) = true
  /\ statusCode (res (handle Examples.happy Examples.request_without_url).2) = 500
  /\ timers (handle Examples.happy Examples.request_without_url).2 = []
  /\ count is_setTimeout
       (trace (handle Examples.happy Examples.request_without_url).2) = 0%nat.
Proof. vm_compute. repeat split; reflexivity. Qed.

(** ** Input validation *)

(** [!url] holds exactly when the parameter is absent or empty. *)
Lemma falsy_iff url : falsy url = true <-> url = Missing \/ url = Text "".
Proof.
  destruct url as [|s|repr]; cbn.
  - tauto.
  - destruct s; cbn; split; try tauto; try discriminate;
      intros [H|H]; discriminate H.
  - split; [discriminate|intros [H|H]; discriminate H].
Qed.

(** C3. A request whose [url] parameter is absent or empty is
    answered with status 500 and the JSON body whose [error] is
    "Failed to generate PDF" and whose [message] is "URL parameter is
    required"; the handler's only external calls are the two
    [console.error] calls of the catch block: no browser is
    launched, no temporary path is allocated, nothing is armed. *)
Theorem missing_url_rejected (w : World.t) (req : Request) :
  query_url req = Missing \/ query_url req = Text "" ->
  statusCode (res (handle w req).2) = 500
  /\ json_body (handle w req).2 !! "error" = Some (Js.Str "Failed to generate PDF")
  /\ json_body (handle w req).2 !! "message" = Some (Js.Str "URL parameter is required")
  /\ dom (json_body (handle w req).2) ⊆ {[ "error"; "message"; "stack" ]}
  /\ trace (handle w req).2 =
       [ ConsoleError "[ERROR] Error in PDF generation:"
           (ErrorArg (new_Error w "URL parameter is required"));
         ConsoleError "[ERROR] Stack trace:"
           (StringArg (Js.stack (new_Error w "URL parameter is required"))) ]
  /\ count is_launch (trace (handle w req).2) = 0%nat
  /\ count is_allocation (trace (handle w req).2) = 0%nat
  /\ browser (handle w req).2 = false
  /\ tempFilePath (handle w req).2 = None
  /\ timers (handle w req).2 = []
  /\ fs (handle w req).2 = files w.
Proof.
  intros Hurl%falsy_iff.
  assert ((handle w req).2 =
            {| browser := false; tempFilePath := None;
               res := error_response w (new_Error w "URL parameter is required");
               fs := files w; timers := [];
               trace :=
                 [ ConsoleError "[ERROR] Error in PDF generation:"
                     (ErrorArg (new_Error w "URL parameter is required"));
                   ConsoleError "[ERROR] Stack trace:"
                     (StringArg (Js.stack (new_Error w "URL parameter is required"))) ] |})
    as ->.
  { apply (wp_handle w req (fun _ s => s = _)). wp_run. reflexivity. }
  destruct (error_envelope w (new_Error w "URL parameter is required"))
    as (Herror & Hmessage & _ & Hdom).
  unfold json_body. cbn [res trace browser tempFilePath timers fs error_response sent statusCode].
  rewrite Herror, Hmessage, Hdom.
  repeat split; try reflexivity.
  destruct (NODE_ENV_is w "development"); set_solver.
Qed.

Lemma missing_url_rejected_witness :
  statusCode (res (handle Examples.happy Examples.request_without_url).2) = 500
  /\ statusCode (res (handle Examples.happy Examples.request_with_empty_url).2) = 500.
Proof.
  split.
  - apply (missing_url_rejected Examples.happy Examples.request_without_url).
    left. reflexivity.
  - apply (missing_url_rejected Examples.happy Examples.request_with_empty_url).
    right. reflexivity.
Defined.

(** ** Navigation *)

Lemma append_inj_prefix (p a b : string) : p +:+ a = p +:+ b -> a = b.
Proof. induction p as [|c p IH]; cbn; [auto|]. intros [= H]. auto. Qed.

(** C5. When navigation, reached by a request whose [url] is truthy
    and convertible to a string, resolves to a response that the
    engine reports as not successful, the request fails: the response has
    status 500, its [message] is "Failed to load page: " followed by
    the decimal status code, from which the code can be read back;
    no document is sent and the export step is never reached. *)
Theorem upstream_error_reported (w : World.t) (req : Request) (r : http_response) :
  falsy (query_url req) = false ->
  renders (query_url req) = true ->
  launch w = None -> newPage w = None -> setViewport w = None ->
  goto w = GotoResponse r ->
  World.ok r = false ->
  res (handle w req).2
    = error_response w (new_Error w ("Failed to load page: " +:+ pretty (World.status r)))
  /\ statusCode (res (handle w req).2) = 500
  /\ json_body (handle w req).2 !! "message"
       = Some (Js.Str ("Failed to load page: " +:+ pretty (World.status r)))
  /\ (forall n : N,
        json_body (handle w req).2 !! "message"
          = Some (Js.Str ("Failed to load page: " +:+ pretty n)) ->
        n = World.status r)
  /\ succeeded (handle w req).2 = false
  /\ count is_pdf (trace (handle w req).2) = 0%nat
  /\ timers (handle w req).2 = [(temp_file w, 0)].
Proof.
  intros Hurl [text Htext]%renders_inv Hlaunch HnewPage HsetViewport Hgoto Hok.
  destruct r as [status ok]; cbn in Hok; subst ok.
  cbn [World.status].
  assert (res (handle w req).2
            = error_response w (new_Error w ("Failed to load page: " +:+ pretty status))
          /\ count is_pdf (trace (handle w req).2) = 0%nat
          /\ timers (handle w req).2 = [(temp_file w, 0)]) as (Hres & Hpdf & Htimers).
  { apply (wp_handle w req (fun _ s =>
      res s = error_response w (new_Error w ("Failed to load page: " +:+ pretty status))
      /\ count is_pdf (trace s) = 0%nat
      /\ timers s = [(temp_file w, 0)])).
    wp_run; count_events; repeat split; reflexivity. }
  destruct (succeeded_error_response _ _ _ Hres) as (Hfailed & Hstatus & Hbody).
  destruct (error_envelope w (new_Error w ("Failed to load page: " +:+ pretty status)))
    as (_ & Hmessage & _).
  rewrite Hbody, Hmessage.
  repeat split; auto.
  intros n [= H%append_inj_prefix]. symmetry. by apply (inj pretty).
Qed.

Lemma upstream_error_reported_witness :
  json_body (handle Examples.not_found Examples.example_request).2 !! "message"
    = Some (Js.Str "Failed to load page: 404").
Proof.
  apply (upstream_error_reported Examples.not_found Examples.example_request
           (HttpResponse 404 false)); reflexivity.
Defined.

(** ** Readiness wait and export *)

Lemma navigated_inv w req :
  navigated w req = true ->
  falsy (query_url req) = false
  /\ (exists text, to_string (query_url req) = Some text)
  /\ launch w = None /\ newPage w = None
  /\ setViewport w = None
  /\ exists status, goto w = GotoResponse (HttpResponse status true).
Proof.
  unfold navigated.
  rewrite !andb_true_iff, !bool_decide_eq_true.
  intros (((([Hurl Htext]%allocated_inv & Hlaunch) & HnewPage) & HsetViewport) & Hgoto).
  repeat split; auto.
  destruct (goto w) as [e| |[status ok]]; try discriminate Hgoto.
  cbn in Hgoto. subst ok. by exists status.
Qed.

(** The handler reaches the readiness wait, and then the export
    step, exactly for the requests and worlds that [navigated]
    describes. *)
Lemma navigated_reaches_wait w req :
  count is_wait (trace (handle w req).2) = (if navigated w req then 1 else 0)%nat
  /\ count is_pdf (trace (handle w req).2) = (if navigated w req then 1 else 0)%nat.
Proof.
  apply (wp_handle w req (fun _ s =>
    count is_wait (trace s) = (if navigated w req then 1 else 0)%nat
    /\ count is_pdf (trace s) = (if navigated w req then 1 else 0)%nat)).
  unfold navigated, allocated, renders.
  wp_run;
    try match goal with
        | H : negb (World.ok ?r) = _ |- _ => destruct r as [? []]; try discriminate H
        end;
    count_events; vm_compute; split; reflexivity.
Qed.

Ltac split_trace n m :=
  match goal with
  | |- exists pre post, ?tr = _ => exists (take n tr), (drop m tr); reflexivity
  end.

(** Once navigation has succeeded, the handler waits for the [body]
    element and then calls [page.pdf] exactly once, with the options
    of the source, whatever the wait does. *)
Lemma export_reached w req :
  navigated w req = true ->
  count is_pdf (trace (handle w req).2) = 1%nat
  /\ (forall error, rejected (pdf w) = Some error ->
        res (handle w req).2 = error_response w error)
  /\ (waitForSelector w = None ->
        count is_sleep (trace (handle w req).2) = 1%nat
        /\ exists pre post : list event,
             trace (handle w req).2 =
               (pre ++ [ WaitForSelector "body" {[ "timeout" := Js.int 10000 ]};
                        Sleep 3000;
                        ConsoleLog "[11] Wait complete";
                        ConsoleLog "[12] Generating PDF...";
                        Pdf (pdf_options (temp_file w)) ] ++ post)%list)
  /\ (forall error, waitForSelector w = Some error ->
        count is_sleep (trace (handle w req).2) = 0%nat
        /\ exists pre post : list event,
             trace (handle w req).2 =
               (pre ++ [ WaitForSelector "body" {[ "timeout" := Js.int 10000 ]};
                        ConsoleLog "[WARNING] Timeout waiting for content, proceeding anyway...";
                        ConsoleLog "[11] Wait complete";
                        ConsoleLog "[12] Generating PDF...";
                        Pdf (pdf_options (temp_file w)) ] ++ post)%list).
Proof.
  intros (Hurl & [text Htext] & Hlaunch & HnewPage & HsetViewport & status & Hgoto)%navigated_inv.
  apply (wp_handle w req (fun _ s =>
    count is_pdf (trace s) = 1%nat
    /\ (forall error, rejected (pdf w) = Some error -> res s = error_response w error)
    /\ (waitForSelector w = None ->
          count is_sleep (trace s) = 1%nat
          /\ exists pre post : list event,
               trace s =
                 (pre ++ [ WaitForSelector "body" {[ "timeout" := Js.int 10000 ]};
                          Sleep 3000;
                          ConsoleLog "[11] Wait complete";
                          ConsoleLog "[12] Generating PDF...";
                          Pdf (pdf_options (temp_file w)) ] ++ post)%list)
    /\ (forall error, waitForSelector w = Some error ->
          count is_sleep (trace s) = 0%nat
          /\ exists pre post : list event,
               trace s =
                 (pre ++ [ WaitForSelector "body" {[ "timeout" := Js.int 10000 ]};
                          ConsoleLog "[WARNING] Timeout waiting for content, proceeding anyway...";
                          ConsoleLog "[11] Wait complete";
                          ConsoleLog "[12] Generating PDF...";
                          Pdf (pdf_options (temp_file w)) ] ++ post)%list))).
  wp_run.
  all: (split; [count_events; reflexivity|]).
  all: (split; [intros ? [= <-]; reflexivity || discriminate | ]).
  all: (split; [intros ?; try discriminate | intros ? ?; try discriminate]).
  all: (split; [count_events; reflexivity | split_trace 16%nat 21%nat]).
Qed.

(** The argument of [page.pdf], property by property. *)
Lemma pdf_options_props p :
  pdf_options p !! "path" = Some (Js.Str p)
  /\ pdf_options p !! "format" = Some (Js.Str "A4")
  /\ pdf_options p !! "printBackground" = Some (Js.Bool true)
  /\ pdf_options p !! "scale" = Some (Js.int 1)
  /\ pdf_options p !! "margin"
       = Some (Js.Obj {[ "top" := Js.Str "20px"; "right" := Js.Str "20px";
                         "bottom" := Js.Str "20px"; "left" := Js.Str "20px" ]})
  /\ pdf_options p !! "preferCSSPageSize" = Some (Js.Bool true)
  /\ pdf_options p !! "timeout" = Some (Js.int 60000)
  /\ dom (pdf_options p)
       = {[ "path"; "format"; "printBackground"; "scale"; "margin";
            "preferCSSPageSize"; "timeout" ]}.
Proof. repeat split; reflexivity. Qed.

Lemma trace_mentions (pre mid post : list event) ev :
  ev ∈ mid -> ev ∈ (pre ++ mid ++ post)%list.
Proof. rewrite !elem_of_app. auto. Qed.

(** Once navigation has succeeded, the file at the temporary path
    is the one [page.pdf] wrote, and the handler wrote nothing else. *)
Lemma export_writes w req :
  navigated w req = true ->
  fs (handle w req).2
    = match written (pdf w) with
      | Some bytes => <[temp_file w := bytes]> (files w)
      | None => files w
      end.
Proof.
  intros (Hurl & [text Htext] & Hlaunch & HnewPage & HsetViewport & status & Hgoto)%navigated_inv.
  apply (wp_handle w req (fun _ s =>
    fs s = match written (pdf w) with
           | Some bytes => <[temp_file w := bytes]> (files w)
           | None => files w
           end)).
  wp_run; reflexivity.
Qed.

(** C7, as the code has it.  Once navigation has succeeded, the
    handler calls [page.pdf] exactly once.  Its argument names the
    temporary file as [path] and asks for format A4, background
    graphics, a margin of 20px on each of the four sides and a
    timeout of 60000 ms; it asks for scale 1, which is no scaling,
    and for [preferCSSPageSize], which lets a page size declared by
    the page replace A4; it asks for nothing else.  What the engine
    writes is the file at the temporary path when the handler ends,
    and the handler writes no other file.  When the call rejects, the
    request fails with status 500 and the message of the export
    error, and no document is sent. *)
Theorem export_step (w : World.t) (req : Request) :
  navigated w req = true ->
  Pdf (pdf_options (temp_file w)) ∈ trace (handle w req).2
  /\ count is_pdf (trace (handle w req).2) = 1%nat
  /\ pdf_options (temp_file w) !! "path" = Some (Js.Str (temp_file w))
  /\ pdf_options (temp_file w) !! "format" = Some (Js.Str "A4")
  /\ pdf_options (temp_file w) !! "printBackground" = Some (Js.Bool true)
  /\ pdf_options (temp_file w) !! "scale" = Some (Js.int 1)
  /\ pdf_options (temp_file w) !! "margin"
       = Some (Js.Obj {[ "top" := Js.Str "20px"; "right" := Js.Str "20px";
                         "bottom" := Js.Str "20px"; "left" := Js.Str "20px" ]})
  /\ pdf_options (temp_file w) !! "preferCSSPageSize" = Some (Js.Bool true)
  /\ pdf_options (temp_file w) !! "timeout" = Some (Js.int 60000)
  /\ dom (pdf_options (temp_file w))
       = {[ "path"; "format"; "printBackground"; "scale"; "margin";
            "preferCSSPageSize"; "timeout" ]}
  /\ (forall bytes, written (pdf w) = Some bytes ->
        fs (handle w req).2 !! temp_file w = Some bytes
        /\ fs (handle w req).2 = <[temp_file w := bytes]> (files w))
  /\ (written (pdf w) = None -> fs (handle w req).2 = files w)
  /\ (forall error, rejected (pdf w) = Some error ->
        statusCode (res (handle w req).2) = 500
        /\ json_body (handle w req).2 !! "message" = Some (Js.Str (Js.message error))
        /\ succeeded (handle w req).2 = false).
Proof.
  intros Hnav.
  destruct (export_reached w req Hnav) as (Hcount & Hrejected & Hfound & Hmissing).
  pose proof (export_writes w req Hnav) as Hfs.
  split; [|split; [exact Hcount|]].
  - destruct (waitForSelector w) as [error|].
    + destruct (Hmissing error eq_refl) as (_ & pre & post & ->).
      apply trace_mentions. elem_of_trace.
    + destruct (Hfound eq_refl) as (_ & pre & post & ->).
      apply trace_mentions. elem_of_trace.
  - destruct (pdf_options_props (temp_file w))
      as (Hpath & Hformat & Hbackground & Hscale & Hmargin & Hcss & Htimeout & Hdom).
    repeat (split; [assumption|]).
    split; [|split].
    + intros bytes Hwritten. rewrite Hwritten in Hfs. rewrite Hfs.
      split; [apply lookup_insert_eq|reflexivity].
    + intros Hwritten. by rewrite Hwritten in Hfs.
    + intros error Herror.
      destruct (succeeded_error_response w _ error (Hrejected error Herror))
        as (Hfailed & Hstatus & Hbody).
      rewrite Hbody. repeat split; auto. apply error_envelope.
Qed.

Lemma export_step_witness :
  count is_pdf (trace (handle Examples.happy Examples.example_request).2) = 1%nat
  /\ fs (handle Examples.happy Examples.example_request).2
       !! temp_file Examples.happy = Some Examples.pdf_bytes
  /\ json_body (handle Examples.export_fails Examples.example_request).2 !! "message"
       = Some (Js.Str "Protocol error: Target closed").
Proof.
  split; [|split].
  - apply (export_step Examples.happy Examples.example_request). reflexivity.
  - assert (navigated Examples.happy Examples.example_request = true)
      as Hnav by reflexivity.
    destruct (export_step Examples.happy Examples.example_request Hnav)
      as (_ & _ & _ & _ & _ & _ & _ & _ & _ & _ & Hwritten & _).
    apply (Hwritten Examples.pdf_bytes). reflexivity.
  - assert (navigated Examples.export_fails Examples.example_request = true)
      as Hnav by reflexivity.
    destruct (export_step Examples.export_fails Examples.example_request Hnav)
      as (_ & _ & _ & _ & _ & _ & _ & _ & _ & _ & _ & _ & Hrejected).
    apply (Hrejected Examples.protocol_error). reflexivity.
Defined.

(** C7, as stated, fails on the scaling and on the page size.  For
    the example request in the world where everything works, the one
    export call asks for scale 1, so the content is not scaled to fit
    anything, and for [preferCSSPageSize], so the page size is A4
    only as long as the page declares none of its own. *)
Lemma export_unscaled_with_css_page_size :
  exists options,
    Pdf options ∈ trace (handle Examples.happy Examples.example_request).2
    /\ count is_pdf (trace (handle Examples.happy Examples.example_request).2) = 1%nat
    /\ options !! "scale" = Some (Js.int 1)
    /\ options !! "preferCSSPageSize" = Some (Js.Bool true)
    /\ options !! "format" = Some (Js.Str "A4").
Proof.
  exists (pdf_options (temp_file Examples.happy)).
  split; [vm_compute; elem_of_trace|].
  repeat split; vm_compute; reflexivity.
Qed.

(** C8. Once navigation has succeeded, the handler waits for the
    [body] element with a timeout of 10000 ms.  When the wait fails,
    the handler logs a warning, skips the settle delay and goes on to
    [page.pdf]; when the element is observed, the handler sleeps
    3000 ms and then goes on to [page.pdf]. *)
Theorem readiness_wait_is_best_effort (w : World.t) (req : Request) :
  navigated w req = true ->
  count is_pdf (trace (handle w req).2) = 1%nat
  /\ (forall error, waitForSelector w = Some error ->
        count is_sleep (trace (handle w req).2) = 0%nat
        /\ exists pre post : list event,
             trace (handle w req).2 =
               (pre ++ [ WaitForSelector "body" {[ "timeout" := Js.int 10000 ]};
                         ConsoleLog "[WARNING] Timeout waiting for content, proceeding anyway...";
                         ConsoleLog "[11] Wait complete";
                         ConsoleLog "[12] Generating PDF...";
                         Pdf (pdf_options (temp_file w)) ] ++ post)%list)
  /\ (waitForSelector w = None ->
        count is_sleep (trace (handle w req).2) = 1%nat
        /\ exists pre post : list event,
             trace (handle w req).2 =
               (pre ++ [ WaitForSelector "body" {[ "timeout" := Js.int 10000 ]};
                         Sleep 3000;
                         ConsoleLog "[11] Wait complete";
                         ConsoleLog "[12] Generating PDF...";
                         Pdf (pdf_options (temp_file w)) ] ++ post)%list).
Proof.
  intros Hnav.
  destruct (export_reached w req Hnav) as (Hcount & _ & Hfound & Hmissing).
  auto.
Qed.

Lemma readiness_wait_is_best_effort_witness :
  count is_sleep (trace (handle Examples.selector_missing Examples.example_request).2) = 0%nat
  /\ count is_sleep (trace (handle Examples.happy Examples.example_request).2) = 1%nat.
Proof.
  split.
  - assert (navigated Examples.selector_missing Examples.example_request = true)
      as Hnav by reflexivity.
    destruct (readiness_wait_is_best_effort
                Examples.selector_missing Examples.example_request Hnav)
      as (_ & Hmissing & _).
    apply (Hmissing Examples.timeout_error). reflexivity.
  - assert (navigated Examples.happy Examples.example_request = true)
      as Hnav by reflexivity.
    destruct (readiness_wait_is_best_effort
                Examples.happy Examples.example_request Hnav)
      as (_ & _ & Hfound).
    apply Hfound. reflexivity.
Defined.

(** ** The delivered document *)

Lemma empty_export_rejected w req :
  navigated w req = true ->
  rejected (pdf w) = None ->
  stat_fault w = None ->
  fs (handle w req).2 !! temp_file w = Some [] ->
  res (handle w req).2 = error_response w (new_Error w "Generated PDF file is empty").
Proof.
  intros (Hurl & [text Htext] & Hlaunch & HnewPage & HsetViewport & status & Hgoto)%navigated_inv
         Hrejected Hstat.
  apply (wp_handle w req (fun _ s =>
    fs s !! temp_file w = Some [] ->
    res s = error_response w (new_Error w "Generated PDF file is empty"))).
  wp_run; unfold temp_file; rewrite ?lookup_insert_eq; intros Hfile.
  all: try reflexivity.
  all: exfalso;
    repeat match goal with
    | H : ?x = Some ?l, H' : ?x = Some [] |- _ => rewrite H in H'
    | H : Some _ = Some [] |- _ => injection H as ->
    | H : None = Some _ |- _ => discriminate H
    end;
    first [ congruence
          | match goal with
            | H : (N.of_nat (length []) =? 0) = false |- _ => discriminate H
            end ].
Qed.

(** C4. When a document is sent, it is not empty, the status is 200
    and the [Content-Length] header is the number of bytes of the
    body, which is the content of the temporary file.  When the
    export step reports success and leaves a temporary file of zero
    bytes, the request fails with the message "Generated PDF file is
    empty" and no document is sent. *)
Theorem document_never_empty (w : World.t) (req : Request) :
  (forall bytes,
     sent (res (handle w req).2) = Some (Buffer bytes) ->
     bytes <> []
     /\ statusCode (res (handle w req).2) = 200
     /\ headers (res (handle w req).2) !! "Content-Length"
          = Some (Js.int (N.of_nat (length bytes)))
     /\ fs (handle w req).2 !! temp_file w = Some bytes)
  /\ (navigated w req = true ->
      rejected (pdf w) = None ->
      stat_fault w = None ->
      fs (handle w req).2 !! temp_file w = Some [] ->
      statusCode (res (handle w req).2) = 500
      /\ json_body (handle w req).2 !! "message"
           = Some (Js.Str "Generated PDF file is empty")
      /\ succeeded (handle w req).2 = false).
Proof.
  split.
  - intros bytes Hsent.
    destruct (handle_outcome w req) as [_ [(_ & bytes' & Hne & Hres & _ & Hfile)
                                          | (error & Hres & _)]];
      rewrite Hres in Hsent |- *; [|discriminate Hsent].
    injection Hsent as <-. auto.
  - intros Hnav Hrejected Hstat Hfile.
    pose proof (empty_export_rejected w req Hnav Hrejected Hstat Hfile) as Hres.
    destruct (succeeded_error_response _ _ _ Hres) as (-> & -> & ->).
    repeat split. apply error_envelope.
Qed.

Lemma document_never_empty_witness :
  Examples.pdf_bytes <> []
  /\ json_body (handle Examples.empty_export Examples.example_request).2 !! "message"
       = Some (Js.Str "Generated PDF file is empty").
Proof.
  split.
  - apply (proj1 (document_never_empty Examples.happy Examples.example_request)).
    reflexivity.
  - apply (proj2 (document_never_empty Examples.empty_export Examples.example_request));
      reflexivity.
Defined.

(** ** The failure response *)

Lemma NODE_ENV_is_true w value :
  NODE_ENV_is w value = true <-> NODE_ENV w = Some value.
Proof.
  unfold NODE_ENV_is. destruct (NODE_ENV w) as [v|].
  - rewrite String.eqb_eq. split; [intros ->; reflexivity|intros [= ->]; reflexivity].
  - split; discriminate.
Qed.

(** C6, as the code has it.  Every request that does not end in a
    document ends with status 500 and a JSON body made of [error],
    which is "Failed to generate PDF", of [message], which is the
    message of the error caught, and of nothing else but [stack];
    [stack] is present exactly when [NODE_ENV] is "development". *)
Theorem failure_envelope (w : World.t) (req : Request) :
  succeeded (handle w req).2 = false ->
  statusCode (res (handle w req).2) = 500
  /\ (exists error,
        sent (res (handle w req).2)
          = Some (Json (Js.json_props (error_object w error)))
        /\ json_body (handle w req).2 !! "message" = Some (Js.Str (Js.message error))
        /\ (NODE_ENV w = Some "development" ->
            json_body (handle w req).2 !! "stack" = Some (Js.Str (Js.stack error))))
  /\ json_body (handle w req).2 !! "error" = Some (Js.Str "Failed to generate PDF")
  /\ {[ "error"; "message" ]} ⊆ dom (json_body (handle w req).2)
  /\ dom (json_body (handle w req).2) ⊆ {[ "error"; "message"; "stack" ]}
  /\ ("stack" ∈ dom (json_body (handle w req).2) <-> NODE_ENV w = Some "development").
Proof.
  intros Hfailed.
  destruct (handle_outcome w req) as [_ [(_ & bytes & _ & Hres & _)
                                        | (error & Hres & _)]].
  { apply succeeded_pdf_response in Hres as [Hok _]. congruence. }
  destruct (succeeded_error_response _ _ _ Hres) as (_ & -> & ->).
  destruct (error_envelope w error) as (Herror & Hmessage & Hstack & Hdom).
  rewrite Hres, Herror, Hmessage, Hstack, Hdom.
  pose proof (NODE_ENV_is_true w "development") as Hmode.
  destruct (NODE_ENV_is w "development").
  - destruct Hmode as [Hmode _]. specialize (Hmode eq_refl).
    split; [reflexivity|]. split; [exists error; auto|].
    repeat split; auto; set_solver.
  - assert (NODE_ENV w <> Some "development") as Hmode'
      by (intros Hdev%Hmode; discriminate Hdev).
    split; [reflexivity|]. split; [exists error; repeat split; tauto|].
    repeat split; auto; set_solver.
Qed.

Lemma failure_envelope_witness :
  ("stack" ∈ dom (json_body (handle Examples.development Examples.request_without_url).2)
   <-> NODE_ENV Examples.development = Some "development")
  /\ statusCode (res (handle Examples.not_found Examples.example_request).2) = 500.
Proof.
  split.
  - apply (failure_envelope Examples.development Examples.request_without_url).
    reflexivity.
  - apply (failure_envelope Examples.not_found Examples.example_request).
    reflexivity.
Defined.

(** C6, as stated, fails when [NODE_ENV] is neither "production" nor
    "development" (here "test"), and when it is not set: the process
    is not in production mode and the body has no [stack]. *)
Lemma stack_omitted_outside_development :
  (non_production Examples.staging
   /\ succeeded (handle Examples.staging Examples.request_without_url).2 = false
   /\ json_body (handle Examples.staging Examples.request_without_url).2
        = {[ "error" := Js.Str "Failed to generate PDF";
             "message" := Js.Str "URL parameter is required" ]}
   /\ json_body (handle Examples.staging Examples.request_without_url).2 !! "stack" = None)
  /\ (non_production Examples.happy
      /\ succeeded (handle Examples.happy Examples.request_without_url).2 = false
      /\ json_body (handle Examples.happy Examples.request_without_url).2 !! "stack" = None).
Proof.
  unfold non_production.
  repeat split; try discriminate; vm_compute; reflexivity.
Qed.

(** ** Cleanup of a temporary file that was never written *)

(** The deletion callback never throws. *)
Lemma deletion_callback_returns w filePath s :
  (deletion_callback w filePath s).1 = inr tt.
Proof.
  unfold deletion_callback, fs_unlink.
  cbv [Eff.try_catch Eff.bind Eff.get Eff.modify Eff.throw Eff.ret
       emit console_log console_error set_fs].
  cbn [fs log].
  destruct (fs s !! filePath); [destruct (unlink_fault w)|]; reflexivity.
Qed.

(** On a path that holds no file, the callback logs the [ENOENT]
    error of [fs.unlink] and changes nothing else. *)
Lemma deletion_callback_missing w filePath s :
  fs s !! filePath = None ->
  deletion_callback w filePath s =
    (inr tt,
     log (ConsoleError ("[ERROR] Failed to delete temporary file: " +:+ filePath)
            (ErrorArg (ENOENT w "unlink" filePath)))
       (log (Unlink filePath) s)).
Proof.
  intros Hmissing.
  unfold deletion_callback, fs_unlink.
  cbv [Eff.try_catch Eff.bind Eff.get Eff.modify Eff.throw Eff.ret
       emit console_log console_error set_fs].
  cbn [fs log]. rewrite Hmissing. reflexivity.
Qed.

(** On a path that holds a file, the callback removes it and logs
    the deletion. *)
Lemma deletion_callback_present w filePath s content :
  fs s !! filePath = Some content ->
  unlink_fault w = None ->
  deletion_callback w filePath s =
    (inr tt,
     log (ConsoleLog ("[CLEANUP] Deleted temporary file: " +:+ filePath))
       (update_fs (delete filePath) (log (Unlink filePath) s))).
Proof.
  intros Hpresent Hfault.
  unfold deletion_callback, fs_unlink.
  cbv [Eff.try_catch Eff.bind Eff.get Eff.modify Eff.throw Eff.ret
       emit console_log console_error set_fs].
  cbn [fs log]. rewrite Hpresent, Hfault. reflexivity.
Qed.

Lemma fire_timers_single w s filePath delay :
  timers s = [(filePath, delay)] ->
  fire_timers w s = deletion_callback w filePath (disarm_all s).
Proof.
  intros Harmed. unfold fire_timers.
  cbv [Eff.bind Eff.get Eff.modify]. rewrite Harmed. cbn [run_callbacks].
  cbv [Eff.bind Eff.ret].
  destruct (deletion_callback w filePath (disarm_all s)) as [[e|[]] s']; reflexivity.
Qed.

(** The deletion callback and the finally block commute: whichever
    runs first, the response, the filesystem, the timers and the two
    locals end the same, and the two traces hold the same events. *)
Lemma callback_commutes_with_finally w filePath s :
  let s1 := closed w (deletion_callback w filePath s).2 in
  let s2 := (deletion_callback w filePath (closed w s)).2 in
  res s1 = res s2 /\ fs s1 = fs s2 /\ timers s1 = timers s2
  /\ browser s1 = browser s2 /\ tempFilePath s1 = tempFilePath s2
  /\ trace s1 ≡ₚ trace s2.
Proof.
  cbv zeta. destruct s as [b t r f tm tr].
  unfold deletion_callback, fs_unlink, closed.
  cbv [Eff.try_catch Eff.bind Eff.get Eff.modify Eff.throw Eff.ret
       emit console_log console_error set_fs].
  destruct b; cbn [browser fs log trace tempFilePath res timers];
    (destruct (f !! filePath) as [content|]; [destruct (unlink_fault w) as [error|]|]);
    cbn [snd browser tempFilePath res fs timers trace log update_fs];
    repeat (split; [reflexivity|]); try reflexivity.
  all: rewrite <- !app_assoc; apply Permutation_app_head; cbn [app].
  all: solve_Permutation.
Qed.

(** C10. When a request for which a temporary path was allocated
    fails and no file exists at that path, the deletion of the path
    is armed with delay 0 and nothing else is armed.  Whenever the
    callback then runs on a state without file at the path, before or
    after the browser is closed, it calls [fs.unlink], which fails;
    the callback logs the [ENOENT] error and returns, and the
    response, the filesystem and the timers stay as they are.  Once
    the timer has fired the response and the filesystem are the ones
    the handler left.  When the request fails before the path is
    allocated, nothing is armed.  Nothing is said of where the events
    of the callback fall among those of the finally block. *)
Theorem unwritten_file_cleanup (w : World.t) (req : Request) :
  (allocated req = true ->
   succeeded (handle w req).2 = false ->
   fs (handle w req).2 !! temp_file w = None ->
   timers (handle w req).2 = [(temp_file w, 0)]
   /\ count is_setTimeout (trace (handle w req).2) = 1%nat
   /\ (forall s,
         fs s !! temp_file w = None ->
         (deletion_callback w (temp_file w) s).1 = inr tt
         /\ Unlink (temp_file w) ∈ trace (deletion_callback w (temp_file w) s).2
         /\ ConsoleError ("[ERROR] Failed to delete temporary file: " +:+ temp_file w)
              (ErrorArg (ENOENT w "unlink" (temp_file w)))
              ∈ trace (deletion_callback w (temp_file w) s).2
         /\ res (deletion_callback w (temp_file w) s).2 = res s
         /\ fs (deletion_callback w (temp_file w) s).2 = fs s
         /\ timers (deletion_callback w (temp_file w) s).2 = timers s)
   /\ (fire_timers w (handle w req).2).1 = inr tt
   /\ ConsoleError ("[ERROR] Failed to delete temporary file: " +:+ temp_file w)
        (ErrorArg (ENOENT w "unlink" (temp_file w)))
        ∈ trace (fire_timers w (handle w req).2).2
   /\ res (fire_timers w (handle w req).2).2 = res (handle w req).2
   /\ fs (fire_timers w (handle w req).2).2 = fs (handle w req).2)
  /\ (allocated req = false ->
      timers (handle w req).2 = []
      /\ count is_setTimeout (trace (handle w req).2) = 0%nat
      /\ fire_timers w (handle w req).2 = (inr tt, disarm_all (handle w req).2)).
Proof.
  destruct (handle_outcome w req) as [Hcount Houtcome].
  split.
  - intros Hurl Hfailed Hmissing.
    destruct Houtcome as [(_ & bytes & _ & Hres & _) | (error & _ & Harmed)].
    { apply succeeded_pdf_response in Hres as [Hok _]. congruence. }
    rewrite Hurl in Harmed.
    rewrite (fire_timers_single w _ _ _ Harmed).
    rewrite deletion_callback_missing by exact Hmissing.
    rewrite Hcount, Harmed.
    split; [reflexivity|]. split; [reflexivity|].
    split.
    { intros s Hs. rewrite (deletion_callback_missing w _ s Hs).
      cbn [fst snd trace res fs timers log].
      repeat split; rewrite ?elem_of_app, ?list_elem_of_singleton; auto. }
    split; [reflexivity|]. split; [|auto].
    cbn [snd trace log]. apply elem_of_app. right. apply list_elem_of_here.
  - intros Hurl.
    destruct Houtcome as [(Hpresent & _) | (error & _ & Harmed)]; [congruence|].
    rewrite Hurl in Harmed. rewrite Hcount, Harmed.
    repeat split. unfold fire_timers.
    cbv [Eff.bind Eff.get Eff.modify]. rewrite Harmed. reflexivity.
Qed.

Lemma unwritten_file_cleanup_witness :
  timers (handle Examples.launch_fails Examples.example_request).2
    = [("/srv/app/temp/0001020304050607f8f9fafbfcfdfeff.pdf", 0)]
  /\ timers (handle Examples.launch_fails Examples.request_without_url).2 = []
  /\ timers (handle Examples.launch_fails Examples.request_with_object_url).2 = [].
Proof.
  split; [|split].
  - apply (proj1 (unwritten_file_cleanup
                    Examples.launch_fails Examples.example_request));
      reflexivity.
  - apply (proj2 (unwritten_file_cleanup
                    Examples.launch_fails Examples.request_without_url)).
    reflexivity.
  - apply (proj2 (unwritten_file_cleanup
                    Examples.launch_fails Examples.request_with_object_url)).
    reflexivity.
Defined.

(** ** Cross-origin policy *)

Lemma indexOf_from_found i l x :
  (0 <= i)%Z -> Cors.indexOf_from i l x <> (-1)%Z <-> x ∈ l.
Proof.
  revert i. induction l as [|y l IH]; intros i Hi; cbn.
  - split; [congruence|]. by intros ?%elem_of_nil.
  - rewrite elem_of_cons. destruct (String.eqb_spec y x) as [->|Hne].
    + split; [auto|lia].
    + rewrite IH by lia. split; [auto|]. intros [->|]; [congruence|auto].
Qed.

(** C9, as the code has it.  The origin check accepts a request
    exactly when the [Origin] header is absent, is the empty string,
    is "http://localhost:3000" or is the one-character string "*";
    every other origin is rejected with the error "Not allowed by
    CORS". *)
Theorem cors_origin_policy (o : option string) :
  (Cors.origin o = Cors.Allow
   <-> o = None \/ o = Some "" \/ o = Some "http://localhost:3000" \/ o = Some "*")
  /\ (Cors.origin o = Cors.Allow \/ Cors.origin o = Cors.Reject "Not allowed by CORS").
Proof.
  unfold Cors.origin, Cors.falsy.
  destruct o as [s|]; [|by repeat split; auto].
  destruct (String.eqb_spec s "") as [->|Hne]; [by repeat split; auto|].
  pose proof (indexOf_from_found 0 Cors.allowedOrigins s ltac:(lia)) as Hfound.
  fold (Cors.indexOf Cors.allowedOrigins s) in Hfound.
  unfold Cors.allowedOrigins in Hfound at 2.
  destruct (Z.eqb_spec (Cors.indexOf Cors.allowedOrigins s) (-1)) as [Heq|Hneq];
    cbn [negb]; (split; [|auto]).
  - split; [discriminate|]. intros Hlisted. exfalso.
    assert (s ∈ ["http://localhost:3000"; "*"]) as Hin
      by (destruct Hlisted as [H|[H|[H|H]]]; simplify_eq; set_solver).
    apply Hfound in Hin. contradiction.
  - split; [intros _|auto].
    apply Hfound in Hneq. set_solver.
Qed.

(** C9, as stated, fails for an [Origin] header that is present and
    empty: it is neither absent nor one of the two listed values, and
    the check accepts it. *)
Lemma empty_origin_accepted :
  Cors.origin (Some "") = Cors.Allow
  /\ Some "" <> (None : option string)
  /\ "" <> "http://localhost:3000"
  /\ "" <> "*".
Proof. repeat split; discriminate. Qed.

End Contract.


(** * Further properties of the code *)

Module Coverage.

Import World Server Props Cover Logic Contract.

(** ** Temporary file names (server.js, lines 36-44) *)

Lemma hex_digit_is_hex n : is_hex_digit (hex_digit n) = true.
Proof.
  destruct n as [|p]; [reflexivity|].
  do 4 (destruct p as [p|p|]; try reflexivity).
Qed.

Lemma hex_digit_inj n m : n < 16 -> m < 16 -> hex_digit n = hex_digit m -> n = m.
Proof.
  intros Hn Hm.
  assert (forall k, k < 16 -> k = 0 \/ k = 1 \/ k = 2 \/ k = 3 \/ k = 4 \/ k = 5
            \/ k = 6 \/ k = 7 \/ k = 8 \/ k = 9 \/ k = 10 \/ k = 11 \/ k = 12
            \/ k = 13 \/ k = 14 \/ k = 15) as Hcases by lia.
  destruct (Hcases n Hn) as [->|[->|[->|[->|[->|[->|[->|[->|[->|[->|[->|[->|[->|[->|[->| ->]]]]]]]]]]]]]]];
    destruct (Hcases m Hm) as [->|[->|[->|[->|[->|[->|[->|[->|[->|[->|[->|[->|[->|[->|[->| ->]]]]]]]]]]]]]]];
    cbn; intros H; first [reflexivity | discriminate H].
Qed.

Lemma byte_of_nibbles b c :
  Byte.to_N b / 16 = Byte.to_N c / 16 ->
  Byte.to_N b mod 16 = Byte.to_N c mod 16 ->
  b = c.
Proof.
  intros Hhigh Hlow.
  assert (Byte.to_N b = Byte.to_N c) as Heq.
  { rewrite (N.div_mod (Byte.to_N b) 16), (N.div_mod (Byte.to_N c) 16) by lia.
    congruence. }
  pose proof (Byte.of_to_N b) as Hb. rewrite Heq, Byte.of_to_N in Hb. congruence.
Qed.

Lemma nibble_bounds b : Byte.to_N b / 16 < 16 /\ Byte.to_N b mod 16 < 16.
Proof.
  pose proof (Byte.to_N_bounded b). split.
  - apply N.Div0.div_lt_upper_bound. lia.
  - apply N.mod_lt. lia.
Qed.

Lemma append_length (s t : string) :
  String.length (s +:+ t) = (String.length s + String.length t)%nat.
Proof. induction s as [|c s IH]; simpl; [reflexivity|]. f_equal. exact IH. Qed.

Lemma append_inj_suffix (s1 s2 t : string) : s1 +:+ t = s2 +:+ t -> s1 = s2.
Proof.
  intros H.
  assert (String.length s1 = String.length s2) as Hlen.
  { apply (f_equal String.length) in H. rewrite !append_length in H. lia. }
  revert s2 H Hlen.
  induction s1 as [|c s1 IH]; intros [|d s2] H Hlen; try discriminate Hlen.
  - reflexivity.
  - injection H as -> H. injection Hlen as Hlen. f_equal. by apply IH.
Qed.

Lemma append_forall p (s t : string) :
  string_forall p (s +:+ t) = string_forall p s && string_forall p t.
Proof.
  induction s as [|c s IH]; simpl; [reflexivity|].
  rewrite <- andb_assoc. f_equal. exact IH.
Qed.

Lemma toString_hex_spec (b1 b2 : list byte) :
  String.length (toString_hex b1) = (2 * length b1)%nat
  /\ string_forall is_hex_digit (toString_hex b1) = true
  /\ (toString_hex b1 = toString_hex b2 <-> b1 = b2).
Proof.
  split; [|split; [|split; [|by intros ->]]].
  - induction b1 as [|b b1 IH]; cbn [toString_hex String.length length]; [reflexivity|].
    rewrite IH. lia.
  - induction b1 as [|b b1 IH]; cbn [toString_hex string_forall]; [reflexivity|].
    by rewrite !hex_digit_is_hex, IH.
  - revert b2. induction b1 as [|b b1 IH]; intros [|c b2] H;
      cbn [toString_hex] in H; try discriminate H; [reflexivity|].
    injection H as Hhigh Hlow Hrest.
    destruct (nibble_bounds b) as [? ?], (nibble_bounds c) as [? ?].
    apply hex_digit_inj in Hhigh; [|assumption..].
    apply hex_digit_inj in Hlow; [|assumption..].
    f_equal; [by apply byte_of_nibbles | by apply IH].
Qed.

(** X1. The hexadecimal name of a buffer has two characters per byte,
    all of them in [0-9a-f], and two buffers have the same name exactly
    when they are the same buffer. *)
Theorem toString_hex_faithful (b1 b2 : list byte) :
  String.length (toString_hex b1) = (2 * length b1)%nat
  /\ string_forall is_hex_digit (toString_hex b1) = true
  /\ (toString_hex b1 = toString_hex b2 <-> b1 = b2).
Proof. exact (toString_hex_spec b1 b2). Qed.

Lemma string_forall_impl (p q : ascii -> bool) s :
  (forall c, p c = true -> q c = true) ->
  string_forall p s = true -> string_forall q s = true.
Proof.
  intros Hpq. induction s as [|c s IH]; cbn; [reflexivity|].
  rewrite !andb_true_iff. intros [Hc Hs]. auto.
Qed.

Lemma hex_digit_not_separator c :
  is_hex_digit c = true -> negb (Ascii.eqb c "/") = true.
Proof.
  destruct (Ascii.eqb_spec c "/") as [->|Hne]; [|reflexivity].
  intros H. vm_compute in H. discriminate H.
Qed.

(** *** [path.join] on a name without separator *)

(** [path.join] normalises what it joins. *)
Lemma path_join_normalises :
  path_join "/" "temp" = "/temp"
  /\ path_join "/srv/app/" "temp" = "/srv/app/temp"
  /\ path_join "/srv/./app/../app" "temp" = "/srv/app/temp"
  /\ path_join "" "temp" = "temp"
  /\ path_join "../srv" "../temp" = "../temp".
Proof. repeat split; reflexivity. Qed.

Lemma split_nonempty s : Path.split s <> [].
Proof.
  destruct s as [|c s]; [discriminate|]. cbn.
  destruct (Ascii.eqb c "/"); [discriminate|]. destruct (Path.split s); discriminate.
Qed.

Lemma split_app_slash (d n : string) :
  Path.split (d +:+ "/" +:+ n) = (Path.split d ++ Path.split n)%list.
Proof.
  induction d as [|c d IH]; [reflexivity|].
  change (String c d +:+ "/" +:+ n) with (String c (d +:+ "/" +:+ n)).
  cbn [Path.split]. rewrite IH.
  destruct (Ascii.eqb c "/"); [reflexivity|].
  pose proof (split_nonempty d). destruct (Path.split d); [contradiction|reflexivity].
Qed.

Lemma split_plain n :
  string_forall (fun c => negb (Ascii.eqb c "/")) n = true -> Path.split n = [n].
Proof.
  induction n as [|c n IH]; [reflexivity|]. cbn.
  intros [Hc Hn]%andb_true_iff. apply negb_true_iff in Hc. rewrite Hc, (IH Hn). reflexivity.
Qed.

Lemma plain_inv n :
  plain n = true ->
  n <> "" /\ n <> "." /\ n <> ".."
  /\ string_forall (fun c => negb (Ascii.eqb c "/")) n = true.
Proof.
  unfold plain. rewrite !andb_true_iff, !negb_true_iff, !String.eqb_neq. tauto.
Qed.

Lemma resolve_step_plain allow stack n :
  plain n = true -> Path.resolve_step allow stack n = n :: stack.
Proof.
  intros (H1 & H2 & H3 & _)%plain_inv. unfold Path.resolve_step.
  by rewrite !eqb_false.
Qed.

Lemma trailing_separator_app (d n : string) :
  n <> "" -> Path.trailing_separator (d +:+ n) = Path.trailing_separator n.
Proof.
  intros Hn. induction d as [|c d IH]; [reflexivity|].
  change (String c d +:+ n) with (String c (d +:+ n)).
  cbn [Path.trailing_separator]. destruct (d +:+ n) eqn:Heq; [|exact IH].
  apply append_eq_nil in Heq as [_ ?]. contradiction.
Qed.

Lemma trailing_separator_plain n :
  string_forall (fun c => negb (Ascii.eqb c "/")) n = true ->
  Path.trailing_separator n = false.
Proof.
  induction n as [|c n IH]; [reflexivity|].
  cbn [string_forall Path.trailing_separator].
  intros [Hc Hn]%andb_true_iff. destruct n; [by apply negb_true_iff|auto].
Qed.

Lemma is_absolute_app (d n : string) :
  d <> "" -> Path.is_absolute (d +:+ n) = Path.is_absolute d.
Proof. destruct d; [contradiction|reflexivity]. Qed.

Lemma concat_sep_snoc (l : list string) (n : string) :
  Path.concat_sep (l ++ [n])
    = match l with [] => n | _ => Path.concat_sep l +:+ "/" +:+ n end.
Proof.
  induction l as [|x l IH]; [reflexivity|].
  change ((x :: l) ++ [n])%list with (x :: (l ++ [n]))%list.
  cbn [Path.concat_sep]. rewrite IH.
  destruct l as [|y l]; [reflexivity|].
  change ((y :: l) ++ [n])%list with (y :: (l ++ [n]))%list. cbv iota.
  by rewrite append_assoc.
Qed.

(** Joining a directory and a plain name puts the name, unchanged,
    behind the normalised directory. *)
Lemma path_join_plain d n :
  d <> "" -> plain n = true -> path_join d n = directory d +:+ n.
Proof.
  intros Hd Hn. pose proof (plain_inv n Hn) as (Hne & _ & _ & Hslash).
  unfold path_join, Path.join, directory. rewrite !eqb_false by done.
  unfold Path.normalize. rewrite eqb_false by (intros [? _]%append_eq_nil; done).
  cbv zeta.
  rewrite is_absolute_app by done.
  rewrite trailing_separator_app by discriminate.
  assert (Path.trailing_separator ("/" +:+ n) = false) as ->.
  { change ("/" +:+ n) with (String "/" n). cbn [Path.trailing_separator].
    destruct n; [done|]. by apply trailing_separator_plain. }
  rewrite split_app_slash, (split_plain n Hslash).
  unfold Path.resolve. rewrite fold_left_app. cbn [fold_left].
  rewrite resolve_step_plain by done. cbn [rev]. rewrite concat_sep_snoc.
  set (l := rev _). rewrite append_nil_r.
  destruct l as [|x l].
  - rewrite eqb_false by done. by rewrite append_nil_r.
  - rewrite eqb_false.
    + by rewrite !append_assoc.
    + intros [_ [=]]%append_eq_nil.
Qed.

Lemma split_concat_sep (l : list string) :
  l <> [] -> forallb plain l = true -> Path.split (Path.concat_sep l) = l.
Proof.
  induction l as [|x l IH]; [done|]. intros _ [Hx Hl]%andb_true_iff.
  pose proof (plain_inv x Hx) as (_ & _ & _ & Hslash).
  destruct l as [|y l]; [by apply split_plain|].
  change (Path.concat_sep (x :: y :: l)) with (x +:+ "/" +:+ Path.concat_sep (y :: l)).
  rewrite split_app_slash, (split_plain x Hslash), IH by done. reflexivity.
Qed.

Lemma fold_resolve_plain allow (l stack : list string) :
  forallb plain l = true ->
  fold_left (Path.resolve_step allow) l stack = (rev l ++ stack)%list.
Proof.
  revert stack. induction l as [|x l IH]; intros stack; [reflexivity|].
  intros [Hx Hl]%andb_true_iff. cbn [fold_left rev].
  rewrite resolve_step_plain, IH by done. by rewrite <- app_assoc.
Qed.

(** The directory part of an absolute path that is already
    normalised is the path itself. *)
Lemma directory_normal (l : list string) :
  l <> [] -> forallb plain l = true ->
  directory ("/" +:+ Path.concat_sep l) = "/" +:+ Path.concat_sep l +:+ "/".
Proof.
  intros Hne Hl. unfold directory.
  change ("/" +:+ Path.concat_sep l) with (String "/" (Path.concat_sep l)).
  cbn [Path.is_absolute Path.split negb]. change (Ascii.eqb "/" "/") with true. cbv iota.
  rewrite split_concat_sep by done.
  unfold Path.resolve. cbn [fold_left]. change (Path.resolve_step false [] "") with (@nil string).
  rewrite fold_resolve_plain, app_nil_r, rev_involutive by done.
  destruct l; [done|reflexivity].
Qed.

Lemma path_join_normal (l : list string) (n : string) :
  l <> [] -> forallb plain l = true -> plain n = true ->
  path_join ("/" +:+ Path.concat_sep l) n = "/" +:+ Path.concat_sep (l ++ [n]).
Proof.
  intros Hne Hl Hn.
  rewrite path_join_plain, directory_normal, concat_sep_snoc by done.
  destruct l; [done|]. by rewrite !append_assoc.
Qed.

(** The name of the temporary file is a plain segment. *)
Lemma temp_name_plain (buffer : list byte) : plain (toString_hex buffer +:+ ".pdf") = true.
Proof.
  destruct (toString_hex_spec buffer []) as (Hlen & Hhex & _).
  assert (forall t, String.length t <> String.length (toString_hex buffer +:+ ".pdf")
                    -> String.eqb (toString_hex buffer +:+ ".pdf") t = false) as Hshort.
  { intros t Ht. apply eqb_false. intros Heq. by rewrite Heq in Ht. }
  unfold plain. rewrite !Hshort by (rewrite append_length, Hlen; cbn; lia).
  cbn [negb andb]. rewrite append_forall, andb_true_iff. split; [|reflexivity].
  eapply string_forall_impl; [apply hex_digit_not_separator|exact Hhex].
Qed.

Lemma tempDir_nonempty w : tempDir w <> "".
Proof.
  unfold tempDir. pose proof (path_join_nonempty (dirname w) "temp") as H.
  by apply String.eqb_neq in H.
Qed.

Lemma temp_file_directory w :
  temp_file w = directory (tempDir w) +:+ toString_hex (randomBytes w) +:+ ".pdf".
Proof.
  unfold temp_file.
  apply path_join_plain; [apply tempDir_nonempty|apply temp_name_plain].
Qed.

Lemma directory_shape d :
  directory d = "" \/ exists p, directory d = p +:+ "/".
Proof.
  unfold directory.
  destruct (Path.is_absolute d); cbn [negb];
    destruct (Path.resolve _ (Path.split d)) as [|x l].
  - right. by exists "".
  - right. exists ("/" +:+ Path.concat_sep (x :: l)). by rewrite !append_assoc.
  - by left.
  - right. exists (Path.concat_sep (x :: l)). reflexivity.
Qed.

(** X2. [getTempFilePath] draws the random bytes and has no other
    effect.  The path it returns is a directory that depends on
    [__dirname] only, empty or ending with a separator, followed by
    the file name [<hex>.pdf], where
    [<hex>] is the hexadecimal name of the random bytes; the name has
    four characters more than twice the number of random bytes and
    holds no path separator, so it is the last segment of the path.
    [path.join] normalises: when [__dirname] is a normalised absolute
    path the file is [<__dirname>/temp/<hex>.pdf], and when it is the
    root the file is [/temp/<hex>.pdf]. *)
Theorem getTempFilePath_shape (w : World.t) (s : State) :
  getTempFilePath w s = (inr (temp_file w), log (RandomBytes 16) s)
  /\ (forall w', dirname w' = dirname w ->
        temp_file w'
          = directory (tempDir w) +:+ toString_hex (randomBytes w') +:+ ".pdf")
  /\ (directory (tempDir w) = "" \/ exists p, directory (tempDir w) = p +:+ "/")
  /\ String.length (toString_hex (randomBytes w) +:+ ".pdf")
       = (2 * length (randomBytes w) + 4)%nat
  /\ plain (toString_hex (randomBytes w) +:+ ".pdf") = true
  /\ (forall segments,
        segments <> [] -> forallb plain segments = true ->
        dirname w = "/" +:+ Path.concat_sep segments ->
        temp_file w
          = dirname w +:+ "/temp/" +:+ toString_hex (randomBytes w) +:+ ".pdf")
  /\ (dirname w = "/" ->
      temp_file w = "/temp/" +:+ toString_hex (randomBytes w) +:+ ".pdf").
Proof.
  destruct (toString_hex_spec (randomBytes w) []) as (Hlen & _ & _).
  split; [reflexivity|]. split; [|split; [|split; [|split; [|split]]]].
  - intros w' Hdir. rewrite temp_file_directory. unfold tempDir. by rewrite Hdir.
  - apply directory_shape.
  - rewrite append_length, Hlen. reflexivity.
  - apply temp_name_plain.
  - intros segments Hne Hplain Hdir.
    unfold temp_file, tempDir. rewrite Hdir.
    rewrite (path_join_normal segments "temp") by done.
    rewrite path_join_normal.
    + rewrite !concat_sep_snoc. destruct segments as [|x l]; [done|].
      rewrite !append_assoc. reflexivity.
    + by destruct segments.
    + rewrite forallb_app, Hplain. reflexivity.
    + apply temp_name_plain.
  - intros Hdir. unfold temp_file, tempDir. rewrite Hdir.
    change (path_join "/" "temp") with ("/" +:+ Path.concat_sep ["temp"]).
    rewrite path_join_normal; [reflexivity|done|reflexivity|apply temp_name_plain].
Qed.

Lemma getTempFilePath_shape_witness :
  temp_file Examples.happy
    = "/srv/app" +:+ "/temp/" +:+ toString_hex (randomBytes Examples.happy) +:+ ".pdf"
  /\ plain (toString_hex (randomBytes Examples.happy) +:+ ".pdf") = true.
Proof.
  destruct (getTempFilePath_shape Examples.happy (initial Examples.happy))
    as (_ & _ & _ & _ & Hplain & Hnormal & _).
  split; [|exact Hplain].
  apply (Hnormal ["srv"; "app"]); [discriminate|reflexivity|reflexivity].
Defined.

(** X3. In one temporary directory, two requests get the same
    temporary path only if they drew the same random bytes. *)
Theorem temp_file_collision_free (w1 w2 : World.t) :
  dirname w1 = dirname w2 ->
  temp_file w1 = temp_file w2 ->
  randomBytes w1 = randomBytes w2.
Proof.
  intros Hdir Hpath. rewrite !temp_file_directory in Hpath.
  unfold tempDir in Hpath. rewrite Hdir in Hpath.
  apply append_inj_prefix in Hpath.
  apply append_inj_suffix in Hpath.
  by apply toString_hex_spec.
Qed.

Lemma temp_file_collision_free_witness :
  randomBytes Examples.happy = randomBytes busy.
Proof.
  apply (temp_file_collision_free Examples.happy busy); reflexivity.
Defined.


(** ** Deferred deletion (server.js, lines 46-56) *)

(** What one run of the deletion callback does to a state. *)
Lemma deletion_callback_effect w filePath s :
  exists added,
    deletion_callback w filePath s
      = (inr tt,
         {| browser := browser s; tempFilePath := tempFilePath s; res := res s;
            fs := match fs s !! filePath, unlink_fault w with
                  | Some _, None => delete filePath (fs s)
                  | _, _ => fs s
                  end;
            timers := timers s;
            trace := trace s ++ Unlink filePath :: added |})
    /\ (unlink_fault w <> None ->
        exists error,
          added = [ConsoleError ("[ERROR] Failed to delete temporary file: " +:+ filePath)
                     (ErrorArg error)]).
Proof.
  unfold deletion_callback, fs_unlink.
  cbv [Eff.try_catch Eff.bind Eff.get Eff.modify Eff.throw Eff.ret
       emit console_log console_error set_fs].
  destruct s as [b t r f tm tr];
    cbn [fs browser tempFilePath res timers trace log update_fs].
  destruct (f !! filePath) as [content|]; [destruct (unlink_fault w) as [error|]|].
  - exists [ConsoleError ("[ERROR] Failed to delete temporary file: " +:+ filePath)
              (ErrorArg error)].
    unfold log, update_fs; cbn [fs browser tempFilePath res timers trace].
    rewrite <- app_assoc. eauto.
  - exists [ConsoleLog ("[CLEANUP] Deleted temporary file: " +:+ filePath)].
    unfold log, update_fs; cbn [fs browser tempFilePath res timers trace].
    rewrite <- app_assoc. split; [reflexivity|]. intros H. by destruct H.
  - exists [ConsoleError ("[ERROR] Failed to delete temporary file: " +:+ filePath)
              (ErrorArg (ENOENT w "unlink" filePath))].
    unfold log, update_fs; cbn [fs browser tempFilePath res timers trace].
    rewrite <- app_assoc. eauto.
Qed.

Lemma run_callbacks_effect w l s :
  (run_callbacks w l s).1 = inr tt
  /\ res (run_callbacks w l s).2 = res s
  /\ timers (run_callbacks w l s).2 = timers s
  /\ (forall p, p ∉ armed_paths l -> fs (run_callbacks w l s).2 !! p = fs s !! p)
  /\ (forall p, fs (run_callbacks w l s).2 !! p = None
                \/ fs (run_callbacks w l s).2 !! p = fs s !! p)
  /\ (unlink_fault w = None ->
      forall p, p ∈ armed_paths l -> fs (run_callbacks w l s).2 !! p = None)
  /\ (unlink_fault w <> None -> fs (run_callbacks w l s).2 = fs s).
Proof.
  revert s. induction l as [|[filePath delay] l IH]; intros s.
  - cbn. repeat split; auto. intros _ p Hp. by apply elem_of_nil in Hp.
  - cbn [run_callbacks]. unfold Eff.bind.
    destruct (deletion_callback_effect w filePath s) as (added & -> & _).
    set (s1 := {| browser := browser s; tempFilePath := tempFilePath s; res := res s;
                  fs := _; timers := timers s; trace := _ |}).
    destruct (IH s1) as (Hret & Hres & Htimers & Hother & Honly & Hgone & Hkept).
    assert (forall p, fs s1 !! p = None \/ fs s1 !! p = fs s !! p) as Honly1.
    { intros p. subst s1. cbn [fs].
      destruct (fs s !! filePath), (unlink_fault w); auto.
      destruct (decide (p = filePath)) as [->|Hne].
      - left. apply lookup_delete_eq.
      - right. by apply lookup_delete_ne. }
    assert (forall p, p <> filePath -> fs s1 !! p = fs s !! p) as Hother1.
    { intros p Hne. subst s1. cbn [fs].
      destruct (fs s !! filePath), (unlink_fault w); auto.
      by apply lookup_delete_ne. }
    split; [exact Hret|]. split; [by rewrite Hres|]. split; [by rewrite Htimers|].
    split; [|split; [|split]].
    + intros p Hp. cbn in Hp. apply not_elem_of_cons in Hp as [Hne Hp].
      rewrite (Hother p Hp). by apply Hother1.
    + intros p. destruct (Honly p) as [H|H]; [by left|]. rewrite H. apply Honly1.
    + intros Hfault p Hp. cbn in Hp. apply elem_of_cons in Hp as [->|Hp].
      * destruct (Honly filePath) as [H|H]; [exact H|]. rewrite H.
        subst s1. cbn [fs]. rewrite Hfault.
        destruct (fs s !! filePath) eqn:Hfile; [apply lookup_delete_eq|exact Hfile].
      * by apply Hgone.
    + intros Hfault. rewrite (Hkept Hfault). subst s1. cbn [fs].
      destruct (fs s !! filePath), (unlink_fault w); congruence.
Qed.

Lemma fire_timers_run w s :
  fire_timers w s = run_callbacks w (timers s) (disarm_all s).
Proof.
  unfold fire_timers. cbv [Eff.bind Eff.get Eff.modify].
  reflexivity.
Qed.

Lemma fire_timers_effect w s :
  (fire_timers w s).1 = inr tt
  /\ res (fire_timers w s).2 = res s
  /\ timers (fire_timers w s).2 = []
  /\ (forall p, p ∉ armed_paths (timers s) ->
        fs (fire_timers w s).2 !! p = fs s !! p)
  /\ (forall p, fs (fire_timers w s).2 !! p = None
                \/ fs (fire_timers w s).2 !! p = fs s !! p)
  /\ (unlink_fault w = None ->
      forall p, p ∈ armed_paths (timers s) -> fs (fire_timers w s).2 !! p = None)
  /\ (unlink_fault w <> None -> fs (fire_timers w s).2 = fs s).
Proof.
  rewrite fire_timers_run.
  destruct (run_callbacks_effect w (timers s) (disarm_all s))
    as (Hret & Hres & Htimers & Hother & Honly & Hgone & Hkept).
  auto 10.
Qed.

(** X4. Whatever timers are armed, firing them never throws, leaves
    the response as it is and no timer armed; only armed paths can
    change, and a path changes only by losing its file. *)
Theorem timers_fire_safely (w : World.t) (s : State) :
  (fire_timers w s).1 = inr tt
  /\ res (fire_timers w s).2 = res s
  /\ timers (fire_timers w s).2 = []
  /\ (forall p, p ∉ armed_paths (timers s) ->
        fs (fire_timers w s).2 !! p = fs s !! p)
  /\ (forall p, fs (fire_timers w s).2 !! p = None
                \/ fs (fire_timers w s).2 !! p = fs s !! p).
Proof.
  destruct (fire_timers_effect w s) as (Hret & Hres & Htimers & Hother & Honly & _).
  auto 10.
Qed.

(** X5. When [fs.unlink] works, every path whose deletion was armed
    holds no file once the timers have fired. *)
Theorem armed_files_are_deleted (w : World.t) (s : State) (p : string) :
  unlink_fault w = None ->
  p ∈ armed_paths (timers s) ->
  fs (fire_timers w s).2 !! p = None.
Proof. intros Hfault Hp. by apply fire_timers_effect. Qed.

Lemma armed_files_are_deleted_witness :
  fs (fire_timers busy armed_state).2 !! other_file = None.
Proof.
  apply (armed_files_are_deleted busy armed_state other_file).
  - reflexivity.
  - apply list_elem_of_here.
Defined.

(** X6. When [fs.unlink] is refused, firing the timers deletes
    nothing: the failure is swallowed and the files stay. *)
Theorem refused_unlink_keeps_files (w : World.t) (s : State) (error : Js.error) :
  unlink_fault w = Some error ->
  (fire_timers w s).1 = inr tt
  /\ fs (fire_timers w s).2 = fs s
  /\ res (fire_timers w s).2 = res s.
Proof.
  intros Hfault.
  destruct (fire_timers_effect w s) as (Hret & Hres & _ & _ & _ & _ & Hkept).
  repeat split; auto. apply Hkept. congruence.
Qed.

Lemma refused_unlink_keeps_files_witness :
  fs (fire_timers unlink_refused armed_state).2 = {[ other_file := Examples.pdf_bytes ]}.
Proof.
  apply (refused_unlink_keeps_files unlink_refused armed_state permission_error).
  reflexivity.
Defined.

(** ** The handler and the filesystem (server.js, lines 74-198) *)

(** The only write of the handler is the one [page.pdf] makes at the
    temporary path. *)
Lemma handle_fs w req :
  fs (handle w req).2 = files w
  \/ exists bytes,
       allocated req = true
       /\ written (pdf w) = Some bytes
       /\ fs (handle w req).2 = <[temp_file w := bytes]> (files w).
Proof.
  apply (wp_handle w req (fun _ s =>
    fs s = files w
    \/ exists bytes,
         allocated req = true
         /\ written (pdf w) = Some bytes
         /\ fs s = <[temp_file w := bytes]> (files w))).
  unfold allocated, renders.
  wp_run; first [ left; reflexivity | right; eexists; repeat split; reflexivity ].
Qed.

Lemma handle_armed w req :
  armed_paths (timers (handle w req).2)
    = if allocated req then [temp_file w] else [].
Proof.
  destruct (handle_outcome w req) as [_ [(-> & bytes & _ & _ & -> & _)
                                        | (error & _ & ->)]];
    [reflexivity|].
  by destruct (allocated req).
Qed.

Lemma allocated_intro req :
  falsy (query_url req) = false -> renders (query_url req) = true ->
  allocated req = true.
Proof. unfold allocated. by intros -> ->. Qed.

Lemma not_allocated req : falsy (query_url req) = true -> allocated req = false.
Proof. unfold allocated. by intros ->. Qed.

(** X7. For a request with a [url] that can be converted to a
    string, once the armed timer has fired
    and [fs.unlink] works, the filesystem is the one the request found
    minus whatever file was at the temporary path: the exported
    document is gone whether the request succeeded or failed. *)
Theorem temp_file_removed_eventually (w : World.t) (req : Request) :
  falsy (query_url req) = false ->
  renders (query_url req) = true ->
  unlink_fault w = None ->
  fs (fire_timers w (handle w req).2).2 = delete (temp_file w) (files w)
  /\ fs (fire_timers w (handle w req).2).2 !! temp_file w = None.
Proof.
  intros Hurl Hrenders Hfault.
  assert (fs (fire_timers w (handle w req).2).2 = delete (temp_file w) (files w)) as Heq;
    [|split; [exact Heq|rewrite Heq; apply lookup_delete_eq]].
  pose proof (handle_armed w req) as Harmed.
  rewrite (allocated_intro req Hurl Hrenders) in Harmed.
  destruct (fire_timers_effect w (handle w req).2)
    as (_ & _ & _ & Hother & _ & Hgone & _).
  specialize (Hgone Hfault (temp_file w)).
  rewrite Harmed in Hother, Hgone. specialize (Hgone (list_elem_of_here _ _)).
  apply map_eq. intros p. destruct (decide (p = temp_file w)) as [->|Hne].
  - by rewrite Hgone, lookup_delete_eq.
  - rewrite Hother by set_solver. rewrite lookup_delete_ne by done.
    destruct (handle_fs w req) as [->|(bytes & _ & _ & ->)]; [reflexivity|].
    by rewrite lookup_insert_ne.
Qed.

Lemma temp_file_removed_eventually_witness :
  fs (fire_timers busy (handle busy Examples.example_request).2).2
    = {[ other_file := Examples.pdf_bytes ]}.
Proof.
  transitivity (delete (temp_file busy) (files busy)); [|reflexivity].
  apply (temp_file_removed_eventually busy Examples.example_request); reflexivity.
Defined.

(** X8. A request never touches a file other than its own temporary
    file, neither while it is handled nor when its timer fires; a
    request without [url] touches none. *)
Theorem other_files_untouched (w : World.t) (req : Request) (p : string) :
  p <> temp_file w ->
  fs (handle w req).2 !! p = files w !! p
  /\ fs (fire_timers w (handle w req).2).2 !! p = files w !! p
  /\ (falsy (query_url req) = true ->
      fs (fire_timers w (handle w req).2).2 = files w).
Proof.
  intros Hne.
  assert (fs (handle w req).2 !! p = files w !! p) as Hkept.
  { destruct (handle_fs w req) as [->|(bytes & _ & _ & ->)]; [reflexivity|].
    by rewrite lookup_insert_ne. }
  pose proof (handle_armed w req) as Harmed.
  destruct (fire_timers_effect w (handle w req).2) as (_ & _ & _ & Hother & _).
  rewrite Harmed in Hother.
  split; [exact Hkept|split].
  - rewrite Hother; [exact Hkept|]. destruct (allocated req); set_solver.
  - intros Hurl%not_allocated. rewrite Hurl in Hother.
    apply map_eq. intros q. rewrite Hother by set_solver.
    destruct (handle_fs w req) as [->|(bytes & Hurl' & _)]; [reflexivity|congruence].
Qed.

Lemma other_files_untouched_witness :
  fs (handle busy Examples.example_request).2 !! other_file = Some Examples.pdf_bytes.
Proof.
  apply (other_files_untouched busy Examples.example_request other_file).
  discriminate.
Defined.

(** ** The two responses (server.js, lines 159-185) *)

(** X9. The promise of the handler always resolves, and the handler
    never ends without having answered: it has handed a document to
    [res.send], or it has set the status 500 and handed the error
    object of some error to [res.json]. *)
Theorem every_request_is_answered (w : World.t) (req : Request) :
  (handle w req).1 = inr tt
  /\ ((exists bytes, sent (res (handle w req).2) = Some (Buffer bytes))
      \/ (statusCode (res (handle w req).2) = 500
          /\ exists error,
               sent (res (handle w req).2)
                 = Some (Json (Js.json_props (error_object w error))))).
Proof.
  split; [apply handle_returns|].
  destruct (handle_outcome w req) as [_ [(_ & bytes & _ & -> & _) | (error & -> & _)]].
  - left. by exists bytes.
  - right. split; [reflexivity|]. by exists error.
Qed.

(** X10. When the handler hands over a document it has set, with
    [res.setHeader], exactly the headers [Content-Type:
    application/pdf], [Content-Disposition: attachment;
    filename=generated.pdf] and [Content-Length]; when it answers
    with the error object it has set no header itself, so a failure
    is never labelled as a PDF by the handler. *)
Theorem response_headers (w : World.t) (req : Request) :
  (succeeded (handle w req).2 = true ->
   headers (res (handle w req).2) !! "Content-Type" = Some (Js.Str "application/pdf")
   /\ headers (res (handle w req).2) !! "Content-Disposition"
        = Some (Js.Str "attachment; filename=generated.pdf")
   /\ dom (headers (res (handle w req).2))
        = {[ "Content-Type"; "Content-Disposition"; "Content-Length" ]})
  /\ (succeeded (handle w req).2 = false -> headers (res (handle w req).2) = ∅).
Proof.
  destruct (handle_outcome w req) as [_ [(_ & bytes & _ & Hres & _) | (error & Hres & _)]].
  - destruct (succeeded_pdf_response _ _ Hres) as [-> _]. rewrite Hres.
    split; [intros _|discriminate]. repeat split; reflexivity.
  - destruct (succeeded_error_response _ _ _ Hres) as (-> & _). rewrite Hres.
    split; [discriminate|reflexivity].
Qed.

Lemma response_headers_witness :
  dom (headers (res (handle Examples.happy Examples.example_request).2))
    = {[ "Content-Type"; "Content-Disposition"; "Content-Length" ]}
  /\ headers (res (handle Examples.not_found Examples.example_request).2) = ∅.
Proof.
  split.
  - apply (proj1 (response_headers Examples.happy Examples.example_request)).
    reflexivity.
  - apply (proj2 (response_headers Examples.not_found Examples.example_request)).
    reflexivity.
Defined.

(** ** The life of the rendering session (server.js, lines 89-109 and 186-197) *)

Ltac count_all :=
  unfold close_event;
  try match goal with |- context [close ?w] => destruct (close w) end;
  cbn [count is_launch is_close is_allocation is_setTimeout is_pdf is_sleep
       is_wait is_newPage is_setViewport is_goto].

(** X11. [puppeteer.launch] is called once for a request that gets
    past validation and line 83 (its [url] is truthy and can be
    converted to a string) and never for another; the [browser] local is
    assigned exactly when that call resolves; [browser.newPage] and
    [browser.close] are each called once when it is assigned and never
    when it is not. *)
Theorem session_lifecycle (w : World.t) (req : Request) :
  count is_launch (trace (handle w req).2)
    = (if allocated req then 1 else 0)%nat
  /\ (browser (handle w req).2 = true
      <-> allocated req = true /\ launch w = None)
  /\ count is_newPage (trace (handle w req).2)
       = (if browser (handle w req).2 then 1 else 0)%nat
  /\ count is_close (trace (handle w req).2)
       = (if browser (handle w req).2 then 1 else 0)%nat.
Proof.
  apply (wp_handle w req (fun _ s =>
    count is_launch (trace s) = (if allocated req then 1 else 0)%nat
    /\ (browser s = true <-> allocated req = true /\ launch w = None)
    /\ count is_newPage (trace s) = (if browser s then 1 else 0)%nat
    /\ count is_close (trace s) = (if browser s then 1 else 0)%nat)).
  unfold allocated, renders.
  wp_run; cbn [negb andb]; count_all; repeat split; try reflexivity;
    intuition congruence.
Qed.

Lemma failure_logged w req :
  match sent (res (handle w req).2) with
  | Some (Buffer _) => True
  | _ =>
      exists error,
        res (handle w req).2 = error_response w error
        /\ ConsoleError "[ERROR] Error in PDF generation:" (ErrorArg error)
             ∈ trace (handle w req).2
        /\ ConsoleError "[ERROR] Stack trace:" (StringArg (Js.stack error))
             ∈ trace (handle w req).2
  end.
Proof.
  apply (wp_handle w req (fun _ s =>
    match sent (res s) with
    | Some (Buffer _) => True
    | _ =>
        exists error,
          res s = error_response w error
          /\ ConsoleError "[ERROR] Error in PDF generation:" (ErrorArg error) ∈ trace s
          /\ ConsoleError "[ERROR] Stack trace:" (StringArg (Js.stack error)) ∈ trace s
    end)).
  wp_run; try exact I; eexists; (split; [reflexivity|]); split; elem_of_trace.
Qed.

(** X12. Whenever the request fails, the error that is reported to
    the caller was first written to the error log, with its stack. *)
Theorem failures_are_logged (w : World.t) (req : Request) :
  succeeded (handle w req).2 = false ->
  exists error,
    res (handle w req).2 = error_response w error
    /\ ConsoleError "[ERROR] Error in PDF generation:" (ErrorArg error)
         ∈ trace (handle w req).2
    /\ ConsoleError "[ERROR] Stack trace:" (StringArg (Js.stack error))
         ∈ trace (handle w req).2.
Proof.
  intros Hfailed. pose proof (failure_logged w req) as Hlogged.
  unfold succeeded in Hfailed.
  destruct (sent (res (handle w req).2)) as [[bytes|props]|];
    [discriminate Hfailed|exact Hlogged|exact Hlogged].
Qed.

Lemma failures_are_logged_witness :
  exists error,
    res (handle Examples.export_fails Examples.example_request).2
      = error_response Examples.export_fails error
    /\ ConsoleError "[ERROR] Error in PDF generation:" (ErrorArg error)
         ∈ trace (handle Examples.export_fails Examples.example_request).2
    /\ ConsoleError "[ERROR] Stack trace:" (StringArg (Js.stack error))
         ∈ trace (handle Examples.export_fails Examples.example_request).2.
Proof.
  apply (failures_are_logged Examples.export_fails Examples.example_request).
  reflexivity.
Defined.
(** ** When a document is delivered (server.js, lines 78-171) *)

Lemma size_zero (bytes : list byte) :
  (N.of_nat (length bytes) =? 0) = true -> bytes = [].
Proof.
  intros H%N.eqb_eq. destruct bytes as [|b bytes]; [reflexivity|].
  cbn [length] in H. lia.
Qed.

Lemma success_cases w req :
  match sent (res (handle w req).2) with
  | Some (Buffer body) =>
      navigated w req = true
      /\ rejected (pdf w) = None /\ stat_fault w = None /\ readFile_fault w = None
      /\ exported_file w = Some body /\ body <> []
  | _ =>
      ~ (navigated w req = true
         /\ rejected (pdf w) = None /\ stat_fault w = None /\ readFile_fault w = None
         /\ exists bytes, exported_file w = Some bytes /\ bytes <> [])
  end.
Proof.
  apply (wp_handle w req (fun _ s =>
    match sent (res s) with
    | Some (Buffer body) =>
        navigated w req = true
        /\ rejected (pdf w) = None /\ stat_fault w = None /\ readFile_fault w = None
        /\ exported_file w = Some body /\ body <> []
    | _ =>
        ~ (navigated w req = true
           /\ rejected (pdf w) = None /\ stat_fault w = None /\ readFile_fault w = None
           /\ exists bytes, exported_file w = Some bytes /\ bytes <> [])
    end)).
  unfold navigated, allocated, renders, exported_file, temp_file.
  wp_run.
  all: repeat match goal with
       | H : negb (World.ok ?r) = _ |- _ =>
           destruct (World.ok r); cbn [negb] in H; try discriminate H; clear H
       | H : (N.of_nat (length _) =? 0) = true |- _ => apply size_zero in H; subst
       | H : (N.of_nat (length _) =? 0) = false |- _ => apply nonempty_of_size in H
       end.
  all: rewrite ?bool_decide_eq_true_2 by reflexivity;
    rewrite ?(bool_decide_eq_false_2 (Some _ = None)) by discriminate;
    cbn [negb andb].
  all: try by repeat split.
  all: intros (Hnav & Hrej & Hstat & Hread & bytes & Hfile & Hne); congruence.
Qed.

(** X13. A document is delivered exactly when the request has a
    [url], the browser starts, the page opens, the viewport is set,
    navigation ends with a successful response, [page.pdf] resolves,
    the file at the temporary path exists and is not empty, and
    [fs.stat] and [fs.readFile] work on it; the body sent is then the
    content of that file.  Whether the selector was found plays no
    part. *)
Theorem success_conditions (w : World.t) (req : Request) :
  (succeeded (handle w req).2 = true <->
     navigated w req = true
     /\ rejected (pdf w) = None /\ stat_fault w = None /\ readFile_fault w = None
     /\ exists bytes, exported_file w = Some bytes /\ bytes <> [])
  /\ (forall body, sent (res (handle w req).2) = Some (Buffer body) ->
        exported_file w = Some body).
Proof.
  pose proof (success_cases w req) as Hcases. unfold succeeded.
  destruct (sent (res (handle w req).2)) as [[body|props]|].
  - destruct Hcases as (Hnav & Hrej & Hstat & Hread & Hfile & Hne).
    split; [|intros ? [= <-]; exact Hfile].
    split; [intros _|reflexivity]. eauto 10.
  - split; [|discriminate]. split; [discriminate|]. intros H. by destruct Hcases.
  - split; [|discriminate]. split; [discriminate|]. intros H. by destruct Hcases.
Qed.

(** ** Failures before the readiness wait (server.js, lines 91-118) *)

Lemma early_failure w req text :
  falsy (query_url req) = false ->
  to_string (query_url req) = Some text ->
  let post error :=
    res (handle w req).2 = error_response w error
    /\ count is_wait (trace (handle w req).2) = 0%nat
    /\ count is_pdf (trace (handle w req).2) = 0%nat
    /\ fs (handle w req).2 = files w
    /\ timers (handle w req).2 = [(temp_file w, 0)] in
  match launch w, newPage w, setViewport w, goto w with
  | Some error, _, _, _ => post error
  | None, Some error, _, _ => post error
  | None, None, Some error, _ => post error
  | None, None, None, GotoRejects error => post error
  | None, None, None, GotoNull =>
      post (TypeError w "Cannot read properties of null (reading 'status')")
  | None, None, None, GotoResponse _ => True
  end.
Proof.
  intros Hurl Htext. cbv zeta.
  apply (wp_handle w req (fun _ s =>
    match launch w, newPage w, setViewport w, goto w with
    | Some error, _, _, _
    | None, Some error, _, _
    | None, None, Some error, _
    | None, None, None, GotoRejects error =>
        res s = error_response w error
        /\ count is_wait (trace s) = 0%nat
        /\ count is_pdf (trace s) = 0%nat
        /\ fs s = files w
        /\ timers s = [(temp_file w, 0)]
    | None, None, None, GotoNull =>
        res s = error_response w (TypeError w "Cannot read properties of null (reading 'status')")
        /\ count is_wait (trace s) = 0%nat
        /\ count is_pdf (trace s) = 0%nat
        /\ fs s = files w
        /\ timers s = [(temp_file w, 0)]
    | None, None, None, GotoResponse _ => True
    end)).
  wp_run.
  all: try exact I; try congruence; count_events; repeat split; reflexivity.
Qed.

(** X14. When [puppeteer.launch], [browser.newPage],
    [page.setViewport] or [page.goto], called for a request whose
    [url] is truthy and can be converted to a string, rejects, the
    request fails with
    that very error: its message is the [message] of the JSON body;
    the page is never waited for or exported, the filesystem is
    untouched, and the deletion of the temporary path is armed with
    no delay. *)
Theorem engine_rejection_reported (w : World.t) (req : Request) (error : Js.error) :
  falsy (query_url req) = false ->
  renders (query_url req) = true ->
  launch w = Some error
  \/ (launch w = None /\ newPage w = Some error)
  \/ (launch w = None /\ newPage w = None /\ setViewport w = Some error)
  \/ (launch w = None /\ newPage w = None /\ setViewport w = None
      /\ goto w = GotoRejects error) ->
  res (handle w req).2 = error_response w error
  /\ json_body (handle w req).2 !! "message" = Some (Js.Str (Js.message error))
  /\ count is_wait (trace (handle w req).2) = 0%nat
  /\ count is_pdf (trace (handle w req).2) = 0%nat
  /\ fs (handle w req).2 = files w
  /\ timers (handle w req).2 = [(temp_file w, 0)].
Proof.
  intros Hurl [text Htext]%renders_inv Hcase.
  pose proof (early_failure w req text Hurl Htext) as Hpost. cbv zeta in Hpost.
  assert (res (handle w req).2 = error_response w error
          /\ count is_wait (trace (handle w req).2) = 0%nat
          /\ count is_pdf (trace (handle w req).2) = 0%nat
          /\ fs (handle w req).2 = files w
          /\ timers (handle w req).2 = [(temp_file w, 0)])
    as (Hres & Hwait & Hpdf & Hfs & Htimers).
  { destruct Hcase as [Hl|[(Hl & Hn)|[(Hl & Hn & Hv)|(Hl & Hn & Hv & Hg)]]].
    - by rewrite Hl in Hpost.
    - by rewrite Hl, Hn in Hpost.
    - by rewrite Hl, Hn, Hv in Hpost.
    - by rewrite Hl, Hn, Hv, Hg in Hpost. }
  destruct (succeeded_error_response _ _ _ Hres) as (_ & _ & Hbody).
  destruct (error_envelope w error) as (_ & Hmessage & _).
  rewrite Hbody, Hmessage. auto 10.
Qed.

Lemma engine_rejection_reported_witness :
  json_body (handle navigation_rejects Examples.example_request).2 !! "message"
    = Some (Js.Str (Js.message Examples.timeout_error))
  /\ res (handle Examples.launch_fails Examples.example_request).2
       = error_response Examples.launch_fails Examples.protocol_error.
Proof.
  split.
  - apply (engine_rejection_reported navigation_rejects Examples.example_request
             Examples.timeout_error); [reflexivity|reflexivity|].
    right; right; right. repeat split; reflexivity.
  - apply (engine_rejection_reported Examples.launch_fails Examples.example_request
             Examples.protocol_error); [reflexivity|reflexivity|].
    left. reflexivity.
Defined.

(** X15. When [page.goto], called for a request whose [url] is
    truthy and can be converted to a string, resolves to [null],
    reading the status of
    the response throws: the request fails with the [TypeError] of
    that call, and the page is never exported. *)
Theorem null_navigation_fails (w : World.t) (req : Request) :
  falsy (query_url req) = false ->
  renders (query_url req) = true ->
  launch w = None -> newPage w = None -> setViewport w = None ->
  goto w = GotoNull ->
  statusCode (res (handle w req).2) = 500
  /\ json_body (handle w req).2 !! "message"
       = Some (Js.Str "Cannot read properties of null (reading 'status')")
  /\ succeeded (handle w req).2 = false
  /\ count is_pdf (trace (handle w req).2) = 0%nat
  /\ timers (handle w req).2 = [(temp_file w, 0)].
Proof.
  intros Hurl [text Htext]%renders_inv Hl Hn Hv Hg.
  pose proof (early_failure w req text Hurl Htext) as Hpost. cbv zeta in Hpost.
  rewrite Hl, Hn, Hv, Hg in Hpost.
  destruct Hpost as (Hres & _ & Hpdf & _ & Htimers).
  destruct (succeeded_error_response _ _ _ Hres) as (Hfailed & Hstatus & Hbody).
  destruct (error_envelope w
              (TypeError w "Cannot read properties of null (reading 'status')"))
    as (_ & Hmessage & _).
  rewrite Hbody, Hmessage. auto 10.
Qed.

Lemma null_navigation_fails_witness :
  json_body (handle navigation_null Examples.example_request).2 !! "message"
    = Some (Js.Str "Cannot read properties of null (reading 'status')").
Proof.
  apply (null_navigation_fails navigation_null Examples.example_request); reflexivity.
Defined.

(** ** The order of the calls (server.js, lines 86-197) *)

Ltac prefix_from n fuel :=
  lazymatch fuel with
  | O => fail
  | S ?fuel' => first [ exists n; reflexivity | prefix_from (S n) fuel' ]
  end.

Lemma call_script w req :
  match sent (res (handle w req).2) with
  | Some (Buffer _) =>
      calls (trace (handle w req).2)
        = (script w req ++ [ SetTimeout (temp_file w) 5000; Close ])%list
  | _ =>
      exists n,
        calls (trace (handle w req).2)
          = (take n (script w req)
             ++ (if allocated req then [ SetTimeout (temp_file w) 0 ] else [])
             ++ (if browser (handle w req).2 then [ Close ] else []))%list
  end.
Proof.
  apply (wp_handle w req (fun _ s =>
    match sent (res s) with
    | Some (Buffer _) =>
        calls (trace s) = (script w req ++ [ SetTimeout (temp_file w) 5000; Close ])%list
    | _ =>
        exists n,
          calls (trace s)
            = (take n (script w req)
               ++ (if allocated req then [ SetTimeout (temp_file w) 0 ] else [])
               ++ (if browser s then [ Close ] else []))%list
    end)).
  unfold script, temp_file, allocated, renders.
  wp_run.
  all: unfold close_event; try destruct (close w);
    cbn [calls List.filter is_console negb andb].
  all: first [ reflexivity | prefix_from 0%nat 11%nat ].
Qed.

(** X16. When the handler has handed over a document, the calls
    the trace records besides console output were, in this order:
    [crypto.randomBytes],
    [puppeteer.launch], [browser.newPage], [page.setViewport],
    [page.goto] with the requested [url], [page.waitForSelector],
    the settle delay when the selector was found, [page.pdf] on the
    temporary path, [fs.stat] and [fs.readFile] of that path,
    [setTimeout] with 5000 ms and [browser.close]; the handler made
    no other call of [crypto.randomBytes], of [puppeteer.launch], of a
    method of the browser or of the page, of [fs] or of [setTimeout]. *)
Theorem success_call_order (w : World.t) (req : Request) :
  succeeded (handle w req).2 = true ->
  calls (trace (handle w req).2)
    = (script w req ++ [ SetTimeout (temp_file w) 5000; Close ])%list.
Proof.
  intros Hok. pose proof (call_script w req) as Hscript.
  unfold succeeded in Hok.
  destruct (sent (res (handle w req).2)) as [[bytes|props]|];
    [exact Hscript|discriminate Hok|discriminate Hok].
Qed.

Lemma success_call_order_witness :
  calls (trace (handle Examples.selector_missing Examples.example_request).2)
    = (script Examples.selector_missing Examples.example_request
       ++ [ SetTimeout (temp_file Examples.selector_missing) 5000; Close ])%list.
Proof.
  apply (success_call_order Examples.selector_missing Examples.example_request).
  reflexivity.
Defined.

(** X17. When the request fails, the same calls of the handler are
    a prefix of that sequence, followed by [setTimeout] with no delay
    when the
    temporary path had been allocated (the [url] is truthy and can be
    converted to a string), and by [browser.close] when the browser
    had started. *)
Theorem failure_call_order (w : World.t) (req : Request) :
  succeeded (handle w req).2 = false ->
  exists n,
    calls (trace (handle w req).2)
      = (take n (script w req)
         ++ (if allocated req then [ SetTimeout (temp_file w) 0 ] else [])
         ++ (if browser (handle w req).2 then [ Close ] else []))%list.
Proof.
  intros Hfailed. pose proof (call_script w req) as Hscript.
  unfold succeeded in Hfailed.
  destruct (sent (res (handle w req).2)) as [[bytes|props]|];
    [discriminate Hfailed|exact Hscript|exact Hscript].
Qed.

Lemma failure_call_order_witness :
  exists n,
    calls (trace (handle Examples.not_found Examples.example_request).2)
      = (take n (script Examples.not_found Examples.example_request)
         ++ [ SetTimeout (temp_file Examples.not_found) 0 ]
         ++ [ Close ])%list.
Proof.
  apply (failure_call_order Examples.not_found Examples.example_request).
  reflexivity.
Defined.

End Coverage.
